(** * tokenserver.crypto.pyworker: the TTL store, the tiered certificate
    cache and the job dispatcher

    A shallow embedding of [src/tokenserver/crypto/pyworker.py].

    - Python dictionaries keyed by [str] are [gmap string _].
    - [time.time()] readings, TTLs and the first component of a stored
      tuple are integers ([Z], seconds); the source only adds a TTL to a
      reading and compares with [<] and [!= 0].
    - Python exceptions are the constructors of [exn]; code that may raise
      returns a [result], and mutations made before a [raise] are kept.
    - The collaborators the module imports (memcached client, origin
      fetcher, protobuf classes, crypto primitives) are parameters. *)

From Stdlib Require Import ZArith Ascii String List Bool Lia.
From stdpp Require Import base option gmap strings fin_maps pretty.

Local Open Scope Z_scope.
Local Open Scope string_scope.

(** ** Python values and exceptions *)

(** The values that cross this module: [None], byte/text strings (key
    material, hex strings, serialized payloads), booleans, integers. *)
Inductive pyval : Type :=
| PyNone
| PyStr (s : string)
| PyBool (b : bool)
| PyInt (z : Z).

(** The exception classes the module raises, catches or lets through.
    [ExpiredValue] is declared as a subclass of [KeyError] (line 36). *)
Inductive exn : Type :=
| KeyError (key : string)
| ExpiredValue (key : string)
| ValueError (msg : string)
| TypeError (msg : string)
| AttributeError (msg : string)
| NameError (name : string)
| BrowserIDError (msg : string)
| Exception (msg : string).

Inductive result (A : Type) : Type :=
| Ok (a : A)
| Raise (e : exn).
Arguments Ok {A} a.
Arguments Raise {A} e.

(** [except KeyError] matches [KeyError] and its subclass [ExpiredValue]. *)
Definition isinstance_KeyError (e : exn) : bool :=
  match e with
  | KeyError _ | ExpiredValue _ => true
  | _ => false
  end.

(** ** TTLedDict (lines 40-76) *)

Module TTLedDict.

(** [self.ttl] and the underlying [dict], whose values are the tuples
    [(insert_date, value)] written by [__setitem__]. *)
Record t : Type := mk {
  ttl : Z;
  items : gmap string (Z * pyval)
}.

(** [TTLedDict(ttl)] *)
Definition init (ttl : Z) : t := mk ttl ∅.

(** [d[key] = value], executed when [time.time()] reads [now]. *)
Definition setitem (now : Z) (key : string) (value : pyval) (d : t) : t :=
  mk (ttl d) (<[key := (now, value)]> (items d)).

(** [del d[key]] *)
Definition delitem (key : string) (d : t) : result t :=
  match items d !! key with
  | Some _ => Ok (mk (ttl d) (delete key (items d)))
  | None => Raise (KeyError key)
  end.

(** The condition of line 59. [time.time()] is only evaluated when
    [insert_date != 0]. *)
Definition expired (insert_date ttl now : Z) : bool :=
  negb (Z.eqb insert_date 0) && Z.ltb (insert_date + ttl) now.

(** [d[key]], with [now] the reading of [time.time()] on line 59. *)
Definition getitem (now : Z) (key : string) (d : t) : result pyval * t :=
  match items d !! key with
  | None => (Raise (KeyError key), d)
  | Some (insert_date, value) =>
      if expired insert_date (ttl d) now then
        match delitem key d with
        | Ok d' => (Raise (ExpiredValue key), d')
        | Raise e => (Raise e, d)
        end
      else (Ok value, d)
  end.

(** [key in d]: [except KeyError] turns Miss and Expired into [False];
    any other exception would propagate. *)
Definition contains (now : Z) (key : string) (d : t) : result bool * t :=
  match getitem now key d with
  | (Ok _, d') => (Ok true, d')
  | (Raise e, d') =>
      if isinstance_KeyError e then (Ok false, d') else (Raise e, d')
  end.

(** [d.set_ttl(key, ttl)] *)
Definition set_ttl (key : string) (new_ttl : Z) (d : t) : result t :=
  match items d !! key with
  | None => Raise (KeyError key)
  | Some (_, value) =>
      Ok (mk (ttl d) (<[key := (new_ttl, value)]> (items d)))
  end.

(** Whether [d[key]] evaluates [time.time()]: the key is present and the
    left operand of the [and] on line 59 is true. *)
Definition reads_clock (key : string) (d : t) : bool :=
  match items d !! key with
  | Some (insert_date, _) => negb (Z.eqb insert_date 0)
  | None => false
  end.

(** [bool(d)]: a dict is false when [len(d) == 0]. *)
Definition truthy (d : t) : bool :=
  negb (Nat.eqb (size (items d)) 0).

End TTLedDict.

(** ** MemcacheClient (lines 23-33) *)

Module MemcacheClient.

(** Modelled from the spec: the shared cache client. [pylibmc.Client] is
    an external library; the spec requires of it [get(key) -> value | miss],
    [set(key, value, ttl)] and [contains(key) -> bool]. The server's
    contents are a map from key to the value and the expiry time it was
    stored with; a miss of [get] is Python's [None]. Server-side expiry and
    writes by other workers are outside this model. *)
Record t : Type := mk {
  ttl : Z;
  items : gmap string (pyval * Z)
}.

(** [MemcacheClient(servers, ttl=...)]; [kwargs.pop('ttl', 0)]. *)
Definition init (ttl : option Z) : t :=
  mk (default 0 ttl) ∅.

(** [c.set(key, value, time=None)] (lines 29-33): a missing [time] is
    replaced by [self.ttl]. *)
Definition set (key : string) (value : pyval) (time : option Z) (c : t) : t :=
  let time := match time with None => ttl c | Some tm => tm end in
  mk (ttl c) (<[key := (value, time)]> (items c)).

(** [c.get(key)] *)
Definition get (key : string) (c : t) : pyval :=
  match items c !! key with
  | Some (value, _) => value
  | None => PyNone
  end.

(** [key in c] *)
Definition contains (key : string) (c : t) : bool :=
  match items c !! key with
  | Some _ => true
  | None => false
  end.

(** [c[key] = value], which calls [c.set(key, value)]. *)
Definition setitem (key : string) (value : pyval) (c : t) : t :=
  set key value None c.

End MemcacheClient.

(** ** The world a worker runs in *)

(** Calls made to the collaborators outside the process, newest first. *)
Inductive Event : Type :=
| EvMemcacheContains (key : string)
| EvMemcacheGet (key : string)
| EvMemcacheSet (key : string) (value : pyval)
| EvFetch (hostname : string).

Definition is_fetch (ev : Event) : bool :=
  match ev with
  | EvFetch _ => true
  | _ => false
  end.

(** Number of origin fetches recorded in a trace. *)
Definition fetch_count (tr : list Event) : nat :=
  length (List.filter is_fetch tr).

(** The state of a [CertificatesManagerWithCache]: [self.memory] and
    [self.memcache] ([None] stands for Python's [False], a disabled tier),
    the number of [time.time()] readings taken so far, and the trace. *)
Record World : Type := mkWorld {
  memory : option TTLedDict.t;
  memcache : option MemcacheClient.t;
  ticks : nat;
  trace : list Event
}.

Definition set_memory (m : option TTLedDict.t) (w : World) : World :=
  mkWorld m (memcache w) (ticks w) (trace w).

Definition set_memcache (m : option MemcacheClient.t) (w : World) : World :=
  mkWorld (memory w) m (ticks w) (trace w).

Definition tick (w : World) : World :=
  mkWorld (memory w) (memcache w) (S (ticks w)) (trace w).

Definition log (ev : Event) (w : World) : World :=
  mkWorld (memory w) (memcache w) (ticks w) (ev :: trace w).

(** A decoded response message; a field that was not set is [None]. *)
Record Response : Type := mkResponse {
  value : option pyval;
  error_type : option string;
  error : option string
}.

(** An entry of [PROTOBUF_CLASSES]: the request class ([ParseFromString]
    followed by [ListFields]) and the response class's serializer. *)
Record ProtobufClasses : Type := mkProtobufClasses {
  ParseFromString : string -> result (list (string * pyval));
  SerializeToString : Response -> string
}.

(** What the module imports and does not define.
    - [clock n] is the [n]-th reading of [time.time()];
    - [origin n hostname] is the outcome of the [n]-th call of
      [CertificatesManager.fetch_public_key];
    - [support_fetch_public_key] is [browserid.tests.support]'s;
    - [PROTOBUF_CLASSES] is [tokenserver.crypto.master]'s table;
    - [jwt_verify algorithm data signed_data signature] is
      [jwt.load_key(algorithm, data).verify(signed_data, signature)];
    - [hkdf_hex] is the body of [derivate_key];
    - [call_attribute] is the call of an attribute of the worker that is
      not one of its handlers. *)
Record Env : Type := mkEnv {
  clock : nat -> Z;
  origin : nat -> string -> result pyval;
  support_fetch_public_key : string -> pyval;
  PROTOBUF_CLASSES : string -> option ProtobufClasses;
  json_loads : pyval -> result pyval;
  jwt_verify : pyval -> pyval -> pyval -> pyval -> result pyval;
  hkdf_hex : pyval -> pyval -> pyval -> pyval -> pyval -> result pyval;
  call_attribute : string -> gmap string pyval -> result pyval
}.

(** ** A state and exception monad over [World] *)

Definition M (A : Type) : Type := World -> result A * World.

Definition ret {A : Type} (a : A) : M A := fun w => (Ok a, w).

Definition raise {A : Type} (e : exn) : M A := fun w => (Raise e, w).

Definition bind {A B : Type} (m : M A) (k : A -> M B) : M B :=
  fun w =>
    match m w with
    | (Ok a, w') => k a w'
    | (Raise e, w') => (Raise e, w')
    end.

Notation "x <- m ;; k" := (bind m (fun x => k))
  (at level 100, m at next level, right associativity).
Notation "m ;;; k" := (bind m (fun _ => k))
  (at level 100, right associativity).

(** [try: body  except: handler], the handler seeing every exception and
    re-raising what it does not catch. *)
Definition try_except {A : Type} (body : M A) (handler : exn -> M A) : M A :=
  fun w =>
    match body w with
    | (Ok a, w') => (Ok a, w')
    | (Raise e, w') => handler e w'
    end.

(** [str(v)] *)
Definition str (v : pyval) : string :=
  match v with
  | PyNone => "None"
  | PyStr s => s
  | PyBool true => "True"
  | PyBool false => "False"
  | PyInt z => pretty z
  end.

(** ** CertificatesManagerWithCache (lines 79-130) *)

Module CertificatesManagerWithCache.

(** [bool(self.memory)] *)
Definition memory_truthy : M bool :=
  fun w =>
    match memory w with
    | None => (Ok false, w)
    | Some d => (Ok (TTLedDict.truthy d), w)
    end.

(** [self.memory[key]] *)
Definition memory_getitem (E : Env) (key : string) : M pyval :=
  fun w =>
    match memory w with
    | None => (Raise (TypeError "'bool' object has no attribute '__getitem__'"), w)
    | Some d =>
        let '(r, d') := TTLedDict.getitem (clock E (ticks w)) key d in
        let w' := set_memory (Some d') w in
        (r, if TTLedDict.reads_clock key d then tick w' else w')
    end.

(** [key in self.memory] *)
Definition memory_contains (E : Env) (key : string) : M bool :=
  fun w =>
    match memory w with
    | None => (Raise (TypeError "argument of type 'bool' is not iterable"), w)
    | Some d =>
        let '(b, d') := TTLedDict.contains (clock E (ticks w)) key d in
        let w' := set_memory (Some d') w in
        (b, if TTLedDict.reads_clock key d then tick w' else w')
    end.

(** [self.memory[key] = value] *)
Definition memory_setitem (E : Env) (key : string) (value : pyval) : M unit :=
  fun w =>
    match memory w with
    | None => (Raise (TypeError "'bool' object does not support item assignment"), w)
    | Some d =>
        (Ok tt, tick (set_memory (Some (TTLedDict.setitem (clock E (ticks w)) key value d)) w))
    end.

(** [self.memory.set_ttl(key, ttl)] *)
Definition memory_set_ttl (key : string) (new_ttl : Z) : M unit :=
  fun w =>
    match memory w with
    | None => (Raise (AttributeError "'bool' object has no attribute 'set_ttl'"), w)
    | Some d =>
        match TTLedDict.set_ttl key new_ttl d with
        | Ok d' => (Ok tt, set_memory (Some d') w)
        | Raise e => (Raise e, w)
        end
    end.

(** [bool(self.memcache)]: [False] when the tier is disabled, a client
    object otherwise. *)
Definition memcache_truthy : M bool :=
  fun w =>
    match memcache w with
    | None => (Ok false, w)
    | Some _ => (Ok true, w)
    end.

(** [key in self.memcache] *)
Definition memcache_contains (key : string) : M bool :=
  fun w =>
    match memcache w with
    | None => (Raise (TypeError "argument of type 'bool' is not iterable"), w)
    | Some c => (Ok (MemcacheClient.contains key c), log (EvMemcacheContains key) w)
    end.

(** [self.memcache.get(key)] *)
Definition memcache_get (key : string) : M pyval :=
  fun w =>
    match memcache w with
    | None => (Raise (AttributeError "'bool' object has no attribute 'get'"), w)
    | Some c => (Ok (MemcacheClient.get key c), log (EvMemcacheGet key) w)
    end.

(** [self.memcache[key] = value] *)
Definition memcache_setitem (key : string) (value : pyval) : M unit :=
  fun w =>
    match memcache w with
    | None => (Raise (TypeError "'bool' object does not support item assignment"), w)
    | Some c =>
        (Ok tt, log (EvMemcacheSet key value)
                    (set_memcache (Some (MemcacheClient.setitem key value c)) w))
    end.

(** [self.fetch_public_key(hostname)], inherited from
    [CertificatesManager]: the call is recorded, then succeeds or raises. *)
Definition fetch_public_key (E : Env) (hostname : string) : M pyval :=
  fun w => (origin E (fetch_count (trace w)) hostname, log (EvFetch hostname) w).

(** [self.memory is not False] *)
Definition memory_is_not_False : M bool :=
  fun w => (Ok (match memory w with Some _ => true | None => false end), w).

(** [self.memcache is not False] *)
Definition memcache_is_not_False : M bool :=
  fun w => (Ok (match memcache w with Some _ => true | None => false end), w).

(** [CertificatesManagerWithCache(memory, memcache, loadtest_mode)]
    (lines 81-104). For the two tiers the outer [None] is the default
    argument [None] and [Some None] is [False]. The manager's state
    replaces the tiers of the world it is built in. *)
Definition init (E : Env) (memory : option (option TTLedDict.t))
    (memcache : option (option MemcacheClient.t)) (loadtest_mode : bool) : M unit :=
  fun w0 =>
    let memory :=
      match memory with
      | None => Some (TTLedDict.init (60 * 10))
      | Some m => m
      end in
    let memcache :=
      match memcache with
      | None => None
      | Some m => m
      end in
    let w := mkWorld memory memcache (ticks w0) (trace w0) in
    if loadtest_mode then
      (memory_setitem E "loadtest.local" (support_fetch_public_key E "loadtest.local") ;;;
       memory_set_ttl "loadtest.local" 0) w
    else (Ok tt, w).

(** The condition of line 114, [self.memory and hostname in self.memory]:
    the membership test is not evaluated when the left operand is false. *)
Definition in_memory (E : Env) (hostname : string) : M bool :=
  t <- memory_truthy ;;
  if t then memory_contains E hostname else ret false.

(** The condition of line 118, [self.memcache and hostname in self.memcache]. *)
Definition in_memcache (hostname : string) : M bool :=
  t <- memcache_truthy ;;
  if t then memcache_contains hostname else ret false.

(** Lines 119-121: the key is taken from the shared tier. *)
Definition from_memcache (E : Env) (hostname : string) : M pyval :=
  key <- memcache_get hostname ;;
  memory_setitem E hostname key ;;;
  ret key.

(** Lines 125-130: the key is fetched from the issuer. *)
Definition from_origin (E : Env) (hostname : string) : M pyval :=
  key <- fetch_public_key E hostname ;;
  (b <- memcache_is_not_False ;; if b then memcache_setitem hostname key else ret tt) ;;;
  (b <- memory_is_not_False ;; if b then memory_setitem E hostname key else ret tt) ;;;
  ret key.

(** [self[hostname]] (lines 106-130); [hostname] is already [str(hostname)]. *)
Definition getitem (E : Env) (hostname : string) : M pyval :=
  hit <- in_memory E hostname ;;
  if hit then memory_getitem E hostname
  else
    shared <- in_memcache hostname ;;
    if shared then from_memcache E hostname else from_origin E hostname.

End CertificatesManagerWithCache.

(** ** CryptoWorker (lines 158-210) *)

Module CryptoWorker.

(** What [__call__] hands back: the bytes of [SerializeToString()], or a
    response object that was not serialized. *)
Inductive returned : Type :=
| Bytes (s : string)
| Object (r : Response).

(** The names bound in the module's global namespace by its [import]
    statements, classes, functions and assignments (lines 1-262). *)
Definition module_globals : list string :=
  [ "json"; "time"; "logger"; "PROTOBUF_CLASSES"; "_DSA"; "_RSA"; "jwt";
    "CertificatesManager"; "fetch_public_key"; "get_params"; "Config";
    "HKDF"; "hashlib"; "BIO"; "pylibmc"; "MemcacheClient"; "ExpiredValue";
    "TTLedDict"; "CertificatesManagerWithCache"; "get_crypto_obj";
    "get_certificate"; "CryptoWorker"; "get_crypto_worker"; "_class";
    "crypto_worker" ].

(** The exception classes of Python's builtin namespace. *)
Definition builtin_exceptions : list string :=
  [ "BaseException"; "Exception"; "StandardError"; "ArithmeticError";
    "LookupError"; "AssertionError"; "AttributeError"; "EOFError";
    "EnvironmentError"; "IOError"; "OSError"; "ImportError"; "IndexError";
    "KeyError"; "KeyboardInterrupt"; "MemoryError"; "NameError";
    "NotImplementedError"; "OverflowError"; "ReferenceError";
    "RuntimeError"; "StopIteration"; "SyntaxError"; "SystemError";
    "SystemExit"; "TypeError"; "UnboundLocalError"; "UnicodeError";
    "ValueError"; "ZeroDivisionError" ].

(** Whether evaluating the global [name] inside the module succeeds. *)
Definition name_bound (name : string) : bool :=
  existsb (String.eqb name) (module_globals ++ builtin_exceptions).

(** [s.split('::', 1)] when the separator occurs: the text before its
    first occurrence and the text after it. [None] when it does not occur
    (the list returned by [split] then has one element). *)
Fixpoint split_once (s : string) : option (string * string) :=
  match s with
  | EmptyString => None
  | String ":"%char (String ":"%char rest) => Some (EmptyString, rest)
  | String c s' =>
      match split_once s' with
      | Some (before, after) => Some (String c before, after)
      | None => None
      end
  end.

(** The dict built by the loop of lines 178-180. *)
Definition fields_dict (fields : list (string * pyval)) : gmap string pyval :=
  fold_left (fun data fv => <[fst fv := snd fv]> data) fields ∅.

(** Binding of the keyword arguments [data] to a method's parameters:
    every parameter must be given and no other keyword may be. *)
Definition bind_kwargs (params : list string) (data : gmap string pyval)
    : result (list pyval) :=
  if Nat.eqb (size data) (length params) then
    match mapM (fun p => data !! p) params with
    | Some args => Ok args
    | None => Raise (TypeError "got an unexpected keyword argument")
    end
  else Raise (TypeError "wrong number of arguments").

Definition lift {A : Type} (r : result A) : M A := fun w => (r, w).

(** [error(self, message)] (lines 190-192) *)
Definition error (data : gmap string pyval) : M pyval :=
  match bind_kwargs ["message"] data with
  | Ok [message] => raise (Exception (str message))
  | Ok _ => raise (TypeError "wrong number of arguments")
  | Raise e => raise e
  end.

(** [check_signature(self, hostname, signed_data, signature, algorithm)]
    (lines 194-198) *)
Definition check_signature (E : Env) (data : gmap string pyval) : M pyval :=
  match bind_kwargs ["hostname"; "signed_data"; "signature"; "algorithm"] data with
  | Ok [hostname; signed_data; signature; algorithm] =>
      key <- CertificatesManagerWithCache.getitem E (str hostname) ;;
      lift (jwt_verify E algorithm key signed_data signature)
  | Ok _ => raise (TypeError "wrong number of arguments")
  | Raise e => raise e
  end.

(** [check_signature_with_cert(self, cert, signed_data, signature,
    algorithm)] (lines 200-204) *)
Definition check_signature_with_cert (E : Env) (data : gmap string pyval) : M pyval :=
  match bind_kwargs ["cert"; "signed_data"; "signature"; "algorithm"] data with
  | Ok [cert; signed_data; signature; algorithm] =>
      key <- lift (json_loads E cert) ;;
      lift (jwt_verify E algorithm key signed_data signature)
  | Ok _ => raise (TypeError "wrong number of arguments")
  | Raise e => raise e
  end.

(** [derivate_key(self, ikm, salt, info, l, hashmod)] (lines 206-210) *)
Definition derivate_key (E : Env) (data : gmap string pyval) : M pyval :=
  match bind_kwargs ["ikm"; "salt"; "info"; "l"; "hashmod"] data with
  | Ok [ikm; salt; info; l; hashmod] => lift (hkdf_hex E ikm salt info l hashmod)
  | Ok _ => raise (TypeError "wrong number of arguments")
  | Raise e => raise e
  end.

(** The methods of the class that serve jobs. *)
Definition handler_names : list string :=
  [ "error"; "check_signature"; "check_signature_with_cert"; "derivate_key" ].

(** The other attributes of a worker: its instance attribute, its two
    special methods and what every [object] has. *)
Definition other_attribute_names : list string :=
  [ "certs"; "__call__"; "__init__"; "__class__"; "__delattr__"; "__dict__";
    "__doc__"; "__format__"; "__getattribute__"; "__hash__"; "__module__";
    "__new__"; "__reduce__"; "__reduce_ex__"; "__repr__"; "__setattr__";
    "__sizeof__"; "__str__"; "__subclasshook__"; "__weakref__" ].

(** [hasattr(self, function_id)] *)
Definition hasattr (function_id : string) : bool :=
  existsb (String.eqb function_id) (handler_names ++ other_attribute_names).

(** [getattr(self, function_id)] called with the keyword arguments
    [data], for a name that [hasattr] accepts. *)
Definition invoke (E : Env) (function_id : string) (data : gmap string pyval) : M pyval :=
  if String.eqb function_id "error" then error data
  else if String.eqb function_id "check_signature" then check_signature E data
  else if String.eqb function_id "check_signature_with_cert" then
    check_signature_with_cert E data
  else if String.eqb function_id "derivate_key" then derivate_key E data
  else lift (call_attribute E function_id data).

(** The body of the [except BrowserIDError as e] clause (line 188). *)
Definition on_BrowserIDError (message : string) : returned :=
  Object (mkResponse None (Some "connection_error") (Some message)).

(** The clause [except BrowserIDError as e] of lines 187-188, reached with
    the exception [e] raised in the [try] block: the class named in the
    clause is evaluated first, as a global of the module. *)
Definition except_BrowserIDError (e : exn) : M returned :=
  if name_bound "BrowserIDError" then
    match e with
    | BrowserIDError message => ret (on_BrowserIDError message)
    | _ => raise e
    end
  else raise (NameError "BrowserIDError").

(** [self(job)] (lines 166-188), on [job.data]. *)
Definition call (E : Env) (job_data : string) : M returned :=
  match split_once job_data with
  | None => raise (ValueError "need more than 1 value to unpack")
  | Some (function_id, serialized_data) =>
      match PROTOBUF_CLASSES E function_id with
      | None => raise (KeyError function_id)
      | Some cls =>
          if negb (hasattr function_id) then
            raise (ValueError ("the function " ++ function_id ++ " does not exists"))
          else
            data <- match ParseFromString cls serialized_data with
                    | Ok fields => ret (fields_dict fields)
                    | Raise (ValueError _) => raise (ValueError "could not parse data")
                    | Raise e => raise e
                    end ;;
            try_except
              (res <- invoke E function_id data ;;
               ret (Bytes (SerializeToString cls (mkResponse (Some res) None None))))
              except_BrowserIDError
      end
  end.

End CryptoWorker.

(** ** Validity of a memory-tier entry *)

(** The entry of [key] is present in [d] and not expired when the clock
    reads [now]. *)
Definition valid_at (now : Z) (key : string) (d : TTLedDict.t) : bool :=
  match TTLedDict.items d !! key with
  | Some (insert_date, _) => negb (TTLedDict.expired insert_date (TTLedDict.ttl d) now)
  | None => false
  end.

(** ** Concrete inputs used to exercise the statements *)

Module Examples.

(** A clock that starts at 1000 s and advances by one second a reading. *)
Definition clock_1000 (n : nat) : Z := 1000 + Z.of_nat n.

(** An origin that knows one host and fails for every other one. *)
Definition origin_one_host (n : nat) (hostname : string) : result pyval :=
  if String.eqb hostname "issuer.example" then Ok (PyStr "PUBKEY")
  else Raise (BrowserIDError "could not fetch the public key").

(** A response encoding that shows which fields are set. *)
Definition serialize (r : Response) : string :=
  match value r with Some v => "value=" ++ str v | None => "" end ++
  match error_type r with Some t => "error_type=" ++ t | None => "" end ++
  match error r with Some m => "error=" ++ m | None => "" end.

(** Request classes whose payload is the hostname (resp. the certificate),
    with fixed values for the three other fields. *)
Definition classes (function_id : string) : option ProtobufClasses :=
  if String.eqb function_id "check_signature" then
    Some (mkProtobufClasses
            (fun s => Ok [("hostname", PyStr s); ("signed_data", PyStr "data");
                          ("signature", PyStr "sig"); ("algorithm", PyStr "RS256")])
            serialize)
  else if String.eqb function_id "check_signature_with_cert" then
    Some (mkProtobufClasses
            (fun s => Ok [("cert", PyStr s); ("signed_data", PyStr "data");
                          ("signature", PyStr "sig"); ("algorithm", PyStr "RS256")])
            serialize)
  else if String.eqb function_id "fly" then
    Some (mkProtobufClasses (fun s => Ok []) serialize)
  else None.

(** A verification primitive that accepts the signature [sig] under the
    key [PUBKEY] and raises the domain error for a certificate that does
    not load. *)
Definition verify (algorithm key signed_data signature : pyval) : result pyval :=
  match key with
  | PyStr "PUBKEY" =>
      Ok (PyBool (match signature with PyStr "sig" => true | _ => false end))
  | _ => Raise (BrowserIDError "invalid certificate")
  end.

Definition env : Env :=
  mkEnv clock_1000 origin_one_host (fun _ => PyStr "LOADTEST")
        classes (fun v => Ok v) verify
        (fun _ _ _ _ _ => Ok (PyStr "00")) (fun _ _ => Raise (TypeError "not callable")).

(** A store with a TTL of ten minutes holding one entry written at 1000. *)
Definition store : TTLedDict.t :=
  TTLedDict.setitem 1000 "k" (PyStr "v") (TTLedDict.init 600).

(** A store whose TTL is 0 holding one entry written at 1000. *)
Definition store_ttl0 : TTLedDict.t :=
  TTLedDict.setitem 1000 "k" (PyStr "v") (TTLedDict.init 0).

(** A shared tier with a TTL of one hour. *)
Definition shared_empty : MemcacheClient.t := MemcacheClient.init (Some 3600).

Definition shared_with_host : MemcacheClient.t :=
  MemcacheClient.setitem "issuer.example" (PyStr "SHAREDKEY") shared_empty.

(** Worlds: both tiers empty; the memory tier holding the host's key,
    written at 1000; the memory tier holding an entry of another host
    written at 100, long expired for [clock_1000]; the shared tier holding
    the host's key. *)
Definition world_empty : World :=
  mkWorld (Some (TTLedDict.init 600)) (Some shared_empty) 0 [].

Definition world_memory_hit : World :=
  mkWorld (Some (TTLedDict.setitem 1000 "issuer.example" (PyStr "MEMKEY") (TTLedDict.init 600)))
          (Some shared_empty) 0 [].

Definition world_stale : World :=
  mkWorld (Some (TTLedDict.setitem 100 "other.example" (PyStr "OLDKEY") (TTLedDict.init 600)))
          (Some shared_empty) 0 [].

(** The error of the example origin. *)
Definition fetch_error : exn := BrowserIDError "could not fetch the public key".

Definition world_shared_hit : World :=
  mkWorld (Some (TTLedDict.init 600)) (Some shared_with_host) 0 [].

End Examples.

(** The hostname (or key) an event is about. *)
Definition event_key (ev : Event) : string :=
  match ev with
  | EvMemcacheContains key => key
  | EvMemcacheGet key => key
  | EvMemcacheSet key _ => key
  | EvFetch hostname => hostname
  end.

(** [bool(v)] *)
Definition truth (v : pyval) : bool :=
  match v with
  | PyNone => false
  | PyStr s => negb (String.eqb s "")
  | PyBool b => b
  | PyInt z => negb (Z.eqb z 0)
  end.

(** ** get_crypto_obj and get_certificate (lines 133-155) *)

Module KeyLoading.

(** A [BIO] of M2Crypto: a memory buffer over a string, or an open file. *)
Inductive BIO : Type :=
| MemoryBuffer (data : string)
| OpenFile (filename : string).

(** What the two functions use of M2Crypto and of [browserid.jwt]:
    [BIO.openfile], the two [load_pub_key_bio] loaders, and the lookup of a
    key class of [jwt] by name, the class being called on the loaded
    object. *)
Record Lib : Type := mkLib {
  BIO_openfile : string -> result BIO;
  RSA_load_pub_key_bio : BIO -> result pyval;
  DSA_load_pub_key_bio : BIO -> result pyval;
  jwt_getattr : string -> option (pyval -> pyval)
}.

(** Lines 137-140: the BIO is a buffer over [str(key)] when [key] is not
    [None], the opened file otherwise. A [filename] that is [None] is
    [None] here. *)
Definition make_bio (L : Lib) (filename : option string) (key : pyval)
    : result BIO :=
  match key with
  | PyNone =>
      match filename with
      | Some f => BIO_openfile L f
      | None => Raise (TypeError "coercing to Unicode: need string or buffer")
      end
  | _ => Ok (MemoryBuffer (str key))
  end.

(** [get_crypto_obj(algo, filename=None, key=None)] (lines 133-149) *)
Definition get_crypto_obj (L : Lib) (algo : string) (filename : option string)
    (key : pyval) : result pyval :=
  match filename, key with
  | None, PyNone => Raise (ValueError "you need to specify either filename or key")
  | _, _ =>
      match make_bio L filename key with
      | Raise e => Raise e
      | Ok bio =>
          if String.prefix "RS" algo then RSA_load_pub_key_bio L bio
          else if String.prefix "DS" algo then DSA_load_pub_key_bio L bio
          else Raise (ValueError "unknown algorithm")
      end
  end.

(** [get_certificate(algo, filename=None, key=None)] (lines 152-155) *)
Definition get_certificate (L : Lib) (algo : string) (filename : option string)
    (key : pyval) : result pyval :=
  match get_crypto_obj L algo filename key with
  | Raise e => Raise e
  | Ok obj =>
      match jwt_getattr L (algo ++ "Key") with
      | None => Raise (AttributeError ("'module' object has no attribute '" ++ algo ++ "Key'"))
      | Some cls => Ok (cls obj)
      end
  end.

End KeyLoading.

(** ** get_crypto_worker (lines 213-256) *)

Module Construction.

(** The dict [config], restricted to the four keys the function reads; the
    two TTLs are integers. A key that is absent is [None]. *)
Record Options : Type := mkOptions {
  loadtest_mode : option pyval;
  memory_ttl : option Z;
  memcache_ttl : option Z;
  memcache_host : option pyval
}.

(** The empty dict. *)
Definition no_options : Options := mkOptions None None None None.

(** [mozsvc.config.Config], read in the section [crypto-worker]. *)
Record ConfigFile : Type := mkConfigFile {
  has_option : string -> bool;
  get : string -> pyval;
  getint : string -> result Z
}.

(** [base.update(new)]: a key of [new] replaces the one of [base]. *)
Definition update (base new : Options) : Options :=
  mkOptions
    (match loadtest_mode new with Some v => Some v | None => loadtest_mode base end)
    (match memory_ttl new with Some v => Some v | None => memory_ttl base end)
    (match memcache_ttl new with Some v => Some v | None => memcache_ttl base end)
    (match memcache_host new with Some v => Some v | None => memcache_host base end).

(** The [for] loop body of lines 232-234 for one option. *)
Definition read_int (conf : ConfigFile) (name : string) : result (option Z) :=
  if has_option conf name then
    match getint conf name with
    | Ok z => Ok (Some z)
    | Raise e => Raise e
    end
  else Ok None.

(** Lines 224-238: the dict read from an open configuration file. *)
Definition read_config (conf : ConfigFile) : result Options :=
  let loadtest :=
    if has_option conf "loadtest_mode"
    then Some (PyBool (truth (get conf "loadtest_mode")))
    else None in
  match read_int conf "memory_ttl" with
  | Raise e => Raise e
  | Ok mem =>
      match read_int conf "memcache_ttl" with
      | Raise e => Raise e
      | Ok mc =>
          Ok (mkOptions loadtest mem mc
                (if has_option conf "memcache_host"
                 then Some (get conf "memcache_host") else None))
      end
  end.

(** Lines 242-247: the shared tier, [False] without a host. *)
Definition build_memcache (config : Options) : result (option MemcacheClient.t) :=
  match memcache_host config with
  | None | Some PyNone => Ok None
  | Some _ =>
      match memcache_ttl config with
      | None => Raise (KeyError "memcache_ttl")
      | Some mc_ttl => Ok (Some (MemcacheClient.init (Some mc_ttl)))
      end
  end.

(** Line 249: the memory tier. *)
Definition build_memory (config : Options) : result TTLedDict.t :=
  match memory_ttl config with
  | None => Raise (KeyError "memory_ttl")
  | Some ttl => Ok (TTLedDict.init ttl)
  end.

(** [loadtest_mode is True], on [config.get('loadtest_mode', False)]. *)
Definition loadtest_is_True (config : Options) : bool :=
  match loadtest_mode config with
  | Some (PyBool true) => true
  | _ => false
  end.

(** [get_crypto_worker(CryptoWorker, config_file, kwargs)] (lines 213-256).
    [Config] opens and parses the file. The worker that is returned is
    its certificates manager, [cls(certs=certs)] keeping [certs] as it
    is. *)
Definition get_crypto_worker (E : Env) (Config : string -> result ConfigFile)
    (config_file : option string) (kwargs : Options) : M unit :=
  fun w0 =>
    match
      match config_file with
      | None => Ok no_options
      | Some f =>
          match Config f with
          | Ok conf => read_config conf
          | Raise e => Raise e
          end
      end
    with
    | Raise e => (Raise e, w0)
    | Ok from_file =>
        let config := update from_file kwargs in
        match build_memcache config with
        | Raise e => (Raise e, w0)
        | Ok memcache =>
            match build_memory config with
            | Raise e => (Raise e, w0)
            | Ok memory =>
                CertificatesManagerWithCache.init E (Some (Some memory)) (Some memcache)
                  (loadtest_is_True config) w0
            end
        end
    end.

End Construction.

(** ** More concrete inputs *)

Module Samples.

(** A library that opens every file but [missing.pem], loads RSA keys from
    any BIO and DSA keys from none, and knows the class [RS256Key]. *)
Definition lib : KeyLoading.Lib :=
  KeyLoading.mkLib
    (fun f => if String.eqb f "missing.pem" then Raise (Exception "No such file")
              else Ok (KeyLoading.OpenFile f))
    (fun bio => Ok (PyStr "RSA"))
    (fun bio => Raise (Exception "not a DSA key"))
    (fun name => if String.eqb name "RS256Key" then Some (fun obj => obj) else None).

(** A configuration file that sets a memory TTL of 300 and nothing else. *)
Definition conf_memory_300 : Construction.ConfigFile :=
  Construction.mkConfigFile
    (fun name => String.eqb name "memory_ttl")
    (fun name => PyNone)
    (fun name => Ok 300).

Definition open_config (f : string) : result Construction.ConfigFile :=
  Ok conf_memory_300.


(** Keyword arguments that name a host for the shared tier without a TTL. *)
Definition kwargs_host_only : Construction.Options :=
  Construction.mkOptions None (Some 60) None (Some (PyStr "localhost:11211")).

(** A world without a memory tier whose shared tier holds the host's key. *)
Definition world_no_memory : World :=
  mkWorld None (Some Examples.shared_with_host) 0 [].

(** A clock that stands still at 1000 s. *)
Definition clock_still (n : nat) : Z := 1000.

Definition env_still : Env :=
  mkEnv clock_still Examples.origin_one_host (fun _ => PyStr "LOADTEST")
        Examples.classes (fun v => Ok v) Examples.verify
        (fun _ _ _ _ _ => Ok (PyStr "00")) (fun _ _ => Raise (TypeError "not callable")).

(** A table whose request class for [derivate_key] rejects every payload
    with [ValueError]. *)
Definition classes_strict (function_id : string) : option ProtobufClasses :=
  if String.eqb function_id "derivate_key" then
    Some (mkProtobufClasses (fun s => Raise (ValueError "Truncated message"))
            Examples.serialize)
  else None.

Definition env_strict : Env :=
  mkEnv Examples.clock_1000 Examples.origin_one_host (fun _ => PyStr "LOADTEST")
        classes_strict (fun v => Ok v) Examples.verify
        (fun _ _ _ _ _ => Ok (PyStr "00")) (fun _ _ => Raise (TypeError "not callable")).

(** The keyword arguments of a [check_signature] job for the example host. *)
Definition signature_job : gmap string pyval :=
  CryptoWorker.fields_dict
    [("hostname", PyStr "issuer.example"); ("signed_data", PyStr "data");
     ("signature", PyStr "sig"); ("algorithm", PyStr "RS256")].

(** A verifier that accepts the signature [sig] under any key. *)
Definition verify_sig (algorithm key signed_data signature : pyval) : result pyval :=
  Ok (PyBool (match signature with PyStr "sig" => true | _ => false end)).

Definition env_verify_sig : Env :=
  mkEnv Examples.clock_1000 Examples.origin_one_host (fun _ => PyStr "LOADTEST")
        Examples.classes (fun v => Ok v) verify_sig
        (fun _ _ _ _ _ => Ok (PyStr "00")) (fun _ _ => Raise (TypeError "not callable")).

(** The request class of [check_signature] in [Examples.classes]. *)
Definition signature_classes : ProtobufClasses :=
  mkProtobufClasses
    (fun s => Ok [("hostname", PyStr s); ("signed_data", PyStr "data");
                  ("signature", PyStr "sig"); ("algorithm", PyStr "RS256")])
    Examples.serialize.

End Samples.

(** * Properties *)

(** ** The TTL store *)

Lemma expired_true_iff (insert_date ttl now : Z) :
  TTLedDict.expired insert_date ttl now = true <->
  insert_date <> 0 /\ insert_date + ttl < now.
Proof.
  unfold TTLedDict.expired.
  rewrite andb_true_iff, negb_true_iff, Z.eqb_neq, Z.ltb_lt. tauto.
Qed.

Lemma expired_false_iff (insert_date ttl now : Z) :
  TTLedDict.expired insert_date ttl now = false <->
  insert_date = 0 \/ now <= insert_date + ttl.
Proof.
  unfold TTLedDict.expired.
  rewrite andb_false_iff, negb_false_iff, Z.eqb_eq, Z.ltb_ge. tauto.
Qed.

(** A read of a missing key signals Miss and changes nothing. *)
Lemma getitem_missing (now : Z) (key : string) (d : TTLedDict.t) :
  TTLedDict.items d !! key = None ->
  TTLedDict.getitem now key d = (Raise (KeyError key), d).
Proof. intros H. unfold TTLedDict.getitem. now rewrite H. Qed.

(** A read of an unexpired entry returns its value and changes nothing. *)
Lemma getitem_live (now : Z) (key : string) (d : TTLedDict.t) (i : Z) (v : pyval) :
  TTLedDict.items d !! key = Some (i, v) ->
  TTLedDict.expired i (TTLedDict.ttl d) now = false ->
  TTLedDict.getitem now key d = (Ok v, d).
Proof. intros H He. unfold TTLedDict.getitem. now rewrite H, He. Qed.

(** A read of an expired entry signals Expired and deletes the entry. *)
Lemma getitem_expired (now : Z) (key : string) (d : TTLedDict.t) (i : Z) (v : pyval) :
  TTLedDict.items d !! key = Some (i, v) ->
  TTLedDict.expired i (TTLedDict.ttl d) now = true ->
  TTLedDict.getitem now key d =
    (Raise (ExpiredValue key),
     TTLedDict.mk (TTLedDict.ttl d) (delete key (TTLedDict.items d))).
Proof.
  intros H He. unfold TTLedDict.getitem, TTLedDict.delitem. now rewrite H, He.
Qed.

(** An entry whose first component is 0 is returned at every time. *)
Lemma getitem_zero_stamp (now : Z) (key : string) (d : TTLedDict.t) (v : pyval) :
  TTLedDict.items d !! key = Some (0, v) ->
  TTLedDict.getitem now key d = (Ok v, d).
Proof. intros H. apply (getitem_live _ _ _ 0); [exact H | reflexivity]. Qed.

(** A store that holds an entry is true in a boolean context. *)
Lemma truthy_of_lookup (d : TTLedDict.t) (key : string) (x : Z * pyval) :
  TTLedDict.items d !! key = Some x -> TTLedDict.truthy d = true.
Proof.
  intros H. unfold TTLedDict.truthy.
  destruct (Nat.eqb_spec (size (TTLedDict.items d)) 0) as [E | E]; [| reflexivity].
  apply map_size_empty_iff in E. rewrite E, lookup_empty in H. discriminate.
Qed.

(** [contains] is [true] exactly on the entries that [getitem] returns. *)
Lemma contains_valid (now : Z) (key : string) (d : TTLedDict.t) :
  fst (TTLedDict.contains now key d) = Ok (valid_at now key d).
Proof.
  unfold TTLedDict.contains, TTLedDict.getitem, TTLedDict.delitem, valid_at.
  destruct (TTLedDict.items d !! key) as [[i v] |]; [| reflexivity].
  now destruct (TTLedDict.expired i (TTLedDict.ttl d) now).
Qed.

(** After [set_ttl key 0] the entry is returned at every time: the path
    by which the loadtest record is made permanent (line 104). *)
Lemma set_ttl_zero_never_expires (d d' : TTLedDict.t) (key : string) (now : Z) :
  TTLedDict.set_ttl key 0 d = Ok d' ->
  exists v, TTLedDict.getitem now key d' = (Ok v, d').
Proof.
  unfold TTLedDict.set_ttl. intros H.
  destruct (TTLedDict.items d !! key) as [[i v] |] eqn:Hk; [| discriminate].
  injection H as <-. exists v.
  apply getitem_zero_stamp. cbn. apply lookup_insert_eq.
Qed.

(** In a store built with a TTL of 0, an entry written at a nonzero time
    is expired as soon as the clock has moved past that time. *)
Lemma zero_ttl_store_expires (d : TTLedDict.t) (key : string) (v : pyval) (t0 now : Z) :
  TTLedDict.ttl d = 0 -> t0 <> 0 -> t0 < now ->
  fst (TTLedDict.getitem now key (TTLedDict.setitem t0 key v d)) =
    Raise (ExpiredValue key).
Proof.
  intros Httl Ht0 Hlt.
  erewrite getitem_expired; [reflexivity | apply lookup_insert_eq |].
  cbn. apply expired_true_iff. lia.
Qed.




(** C2 (the code at the failing input). In a store built with a TTL of 0,
    an entry written at time 1000 is read one second later: the read
    signals Expired and the entry is deleted. *)
Theorem store_ttl_zero_expires :
  TTLedDict.getitem 1001 "k"
    (TTLedDict.setitem 1000 "k" (PyStr "v") (TTLedDict.init 0)) =
  (Raise (ExpiredValue "k"), TTLedDict.init 0).
Proof. reflexivity. Qed.

(** C4 (counterexample). With a TTL of 600, an entry written at 1000 is
    still returned when the clock reads exactly 1000 + 600, and the store
    is unchanged. *)
Lemma getitem_at_deadline_returns :
  TTLedDict.ttl Examples.store = 600 /\
  TTLedDict.items Examples.store !! "k" = Some (1000, PyStr "v") /\
  TTLedDict.getitem (1000 + 600) "k" Examples.store = (Ok (PyStr "v"), Examples.store).
Proof. repeat split; reflexivity. Qed.

(** C4 (amended). An entry written at a nonzero time [t0] in a store with
    a positive TTL is returned, the store unchanged, at every time from
    [t0] up to and including [t0 + ttl]; at every time after [t0 + ttl]
    the read signals Expired, which is a [KeyError], and removes the
    entry, so that a later read signals Miss. *)
Theorem getitem_after_setitem (d : TTLedDict.t) (key : string) (v : pyval) (t0 now : Z) :
  TTLedDict.ttl d > 0 -> t0 <> 0 -> t0 <= now ->
  let d0 := TTLedDict.setitem t0 key v d in
  (now <= t0 + TTLedDict.ttl d -> TTLedDict.getitem now key d0 = (Ok v, d0)) /\
  (t0 + TTLedDict.ttl d < now ->
     exists d1,
       TTLedDict.getitem now key d0 = (Raise (ExpiredValue key), d1) /\
       isinstance_KeyError (ExpiredValue key) = true /\
       TTLedDict.items d1 !! key = None /\
       forall later, TTLedDict.getitem later key d1 = (Raise (KeyError key), d1)).
Proof.
  intros Httl Ht0 Hle d0. split.
  - intros Hin. apply (getitem_live _ _ _ t0).
    + apply lookup_insert_eq.
    + apply expired_false_iff. now right.
  - intros Hout. eexists. split.
    + apply (getitem_expired _ _ _ t0 v).
      * apply lookup_insert_eq.
      * apply expired_true_iff. now split.
    + split; [reflexivity |].
      split; [apply lookup_delete_eq |].
      intros later. apply getitem_missing. apply lookup_delete_eq.
Qed.

Lemma getitem_after_setitem_witness :
  (TTLedDict.ttl (TTLedDict.init 600) > 0 /\ 1000 <> 0 /\ 1000 <= 1601) /\
  let d0 := TTLedDict.setitem 1000 "k" (PyStr "v") (TTLedDict.init 600) in
  (1601 <= 1000 + TTLedDict.ttl (TTLedDict.init 600) ->
     TTLedDict.getitem 1601 "k" d0 = (Ok (PyStr "v"), d0)) /\
  (1000 + TTLedDict.ttl (TTLedDict.init 600) < 1601 ->
     exists d1,
       TTLedDict.getitem 1601 "k" d0 = (Raise (ExpiredValue "k"), d1) /\
       isinstance_KeyError (ExpiredValue "k") = true /\
       TTLedDict.items d1 !! "k" = None /\
       forall later, TTLedDict.getitem later "k" d1 = (Raise (KeyError "k"), d1)).
Proof.
  split; [cbn; lia |].
  apply (getitem_after_setitem (TTLedDict.init 600) "k" (PyStr "v") 1000 1601);
    cbn; lia.
Defined.

(** C10. [contains] on a key whose entry has expired answers [false] and
    deletes the entry: the store afterwards differs from the store before,
    holds no entry for the key, and every later [getitem] of the key
    signals Miss ([KeyError]) and not Expired. *)
Theorem contains_expired_deletes (d : TTLedDict.t) (key : string) (i : Z) (v : pyval) (now : Z) :
  TTLedDict.items d !! key = Some (i, v) ->
  i <> 0 -> i + TTLedDict.ttl d < now ->
  exists d',
    TTLedDict.contains now key d = (Ok false, d') /\
    d' = TTLedDict.mk (TTLedDict.ttl d) (delete key (TTLedDict.items d)) /\
    d' <> d /\
    TTLedDict.items d' !! key = None /\
    forall later, TTLedDict.getitem later key d' = (Raise (KeyError key), d').
Proof.
  intros Hk Hi Hlt. eexists. split.
  - unfold TTLedDict.contains.
    rewrite (getitem_expired now key d i v Hk); [reflexivity |].
    apply expired_true_iff. now split.
  - split; [reflexivity |]. split.
    + intros Heq. rewrite <- Heq in Hk. cbn in Hk.
      rewrite lookup_delete_eq in Hk. discriminate.
    + split; [apply lookup_delete_eq |].
      intros later. apply getitem_missing. apply lookup_delete_eq.
Qed.

Lemma contains_expired_deletes_witness :
  (TTLedDict.items Examples.store !! "k" = Some (1000, PyStr "v") /\
   1000 <> 0 /\ 1000 + TTLedDict.ttl Examples.store < 1601) /\
  exists d',
    TTLedDict.contains 1601 "k" Examples.store = (Ok false, d') /\
    d' = TTLedDict.mk (TTLedDict.ttl Examples.store)
                      (delete "k" (TTLedDict.items Examples.store)) /\
    d' <> Examples.store /\
    TTLedDict.items d' !! "k" = None /\
    forall later, TTLedDict.getitem later "k" d' = (Raise (KeyError "k"), d').
Proof.
  split; [split; [reflexivity | split; [discriminate | cbn; lia]] |].
  apply (contains_expired_deletes Examples.store "k" 1000 (PyStr "v") 1601);
    [reflexivity | discriminate | cbn; lia].
Defined.

(** ** The tiered certificate cache *)

Lemma world_eta (w : World) :
  mkWorld (memory w) (memcache w) (ticks w) (trace w) = w.
Proof. now destruct w. Qed.

Lemma store_eta (d : TTLedDict.t) :
  TTLedDict.mk (TTLedDict.ttl d) (TTLedDict.items d) = d.
Proof. now destruct d. Qed.

(** The store left by a membership test that did not succeed: the entry
    of the key, if there was one, is gone. *)
Lemma contains_false_store (now : Z) (key : string) (d : TTLedDict.t) :
  valid_at now key d = false ->
  TTLedDict.contains now key d =
    (Ok false, TTLedDict.mk (TTLedDict.ttl d) (delete key (TTLedDict.items d))).
Proof.
  unfold valid_at, TTLedDict.contains, TTLedDict.getitem, TTLedDict.delitem.
  destruct (TTLedDict.items d !! key) as [[i v] |] eqn:Hk.
  - rewrite negb_false_iff. now intros ->.
  - intros _. rewrite delete_id by exact Hk. now rewrite store_eta.
Qed.

(** The memory-tier test on a valid entry answers [true] and leaves the
    tiers and the trace as they were. *)
Lemma in_memory_hit (E : Env) (h : string) (w : World) (d : TTLedDict.t) :
  memory w = Some d ->
  valid_at (clock E (ticks w)) h d = true ->
  exists w1,
    CertificatesManagerWithCache.in_memory E h w = (Ok true, w1) /\
    memory w1 = memory w /\ memcache w1 = memcache w /\ trace w1 = trace w /\
    ticks w1 = if TTLedDict.reads_clock h d then S (ticks w) else ticks w.
Proof.
  intros Hm Hv.
  unfold CertificatesManagerWithCache.in_memory, bind,
    CertificatesManagerWithCache.memory_truthy,
    CertificatesManagerWithCache.memory_contains.
  rewrite Hm.
  pose proof (contains_valid (clock E (ticks w)) h d) as Hc. rewrite Hv in Hc.
  assert (Hd : snd (TTLedDict.contains (clock E (ticks w)) h d) = d).
  { revert Hv. unfold valid_at, TTLedDict.contains, TTLedDict.getitem.
    destruct (TTLedDict.items d !! h) as [[i v] |]; [| discriminate].
    rewrite negb_true_iff. now intros ->. }
  assert (Ht : TTLedDict.truthy d = true).
  { revert Hv. unfold valid_at.
    destruct (TTLedDict.items d !! h) as [x |] eqn:Hk; [| discriminate].
    intros _. exact (truthy_of_lookup d h x Hk). }
  rewrite Ht, Hm.
  destruct (TTLedDict.contains (clock E (ticks w)) h d) as [b d'].
  cbn in Hc, Hd. subst b d'.
  eexists. split; [reflexivity |].
  destruct (TTLedDict.reads_clock h d); cbn; auto.
Qed.

(** The memory-tier test on a disabled tier, a missing key or an expired
    entry answers [false]; it touches neither the shared tier nor the
    trace, and leaves the memory tier without an entry for the key. *)
Lemma in_memory_miss (E : Env) (h : string) (w : World) :
  (forall d, memory w = Some d -> valid_at (clock E (ticks w)) h d = false) ->
  exists w1,
    CertificatesManagerWithCache.in_memory E h w = (Ok false, w1) /\
    memory w1 =
      (fun d => TTLedDict.mk (TTLedDict.ttl d) (delete h (TTLedDict.items d)))
        <$> memory w /\
    memcache w1 = memcache w /\ trace w1 = trace w /\
    (ticks w <= ticks w1)%nat.
Proof.
  intros Hv.
  unfold CertificatesManagerWithCache.in_memory, bind,
    CertificatesManagerWithCache.memory_truthy,
    CertificatesManagerWithCache.memory_contains.
  destruct (memory w) as [d |] eqn:Hm.
  - specialize (Hv d eq_refl).
    destruct (TTLedDict.truthy d) eqn:Ht.
    + rewrite Hm, (contains_false_store _ _ _ Hv).
      eexists. split; [reflexivity |].
      destruct (TTLedDict.reads_clock h d); cbn; repeat split; auto.
    + eexists. split; [reflexivity |]. rewrite Hm. cbn.
      repeat split; auto.
      unfold TTLedDict.truthy in Ht. rewrite negb_false_iff in Ht.
      apply Nat.eqb_eq, map_size_empty_iff in Ht.
      rewrite delete_id by (rewrite Ht; apply lookup_empty).
      now rewrite store_eta.
  - eexists. split; [reflexivity |]. rewrite Hm. repeat split; auto.
Qed.

(** Events of the shared tier do not count as origin fetches. *)
Lemma fetch_count_app (tr1 tr2 : list Event) :
  fetch_count (tr1 ++ tr2) = (fetch_count tr1 + fetch_count tr2)%nat.
Proof. unfold fetch_count. now rewrite List.filter_app, length_app. Qed.

(** C5. When the memory tier holds an entry for the hostname that is
    unexpired at the readings of the clock taken by the lookup (one by the
    membership test, one by the read that follows it), the lookup returns
    the value of that entry; the trace of calls to the shared tier and to
    the origin is unchanged, and so are both tiers. *)
Theorem getitem_memory_hit (E : Env) (h : string) (w : World)
    (d : TTLedDict.t) (i : Z) (v : pyval) :
  memory w = Some d ->
  TTLedDict.items d !! h = Some (i, v) ->
  valid_at (clock E (ticks w)) h d = true ->
  valid_at (clock E (S (ticks w))) h d = true ->
  exists w',
    CertificatesManagerWithCache.getitem E h w = (Ok v, w') /\
    trace w' = trace w /\
    memory w' = memory w /\
    memcache w' = memcache w.
Proof.
  intros Hm Hk Hv1 Hv2.
  destruct (in_memory_hit E h w d Hm Hv1) as (w1 & Hin & Hm1 & Hc1 & Ht1 & Hn1).
  unfold CertificatesManagerWithCache.getitem, bind. rewrite Hin.
  unfold CertificatesManagerWithCache.memory_getitem. rewrite Hm1, Hm.
  assert (Hlive : TTLedDict.expired i (TTLedDict.ttl d) (clock E (ticks w1)) = false).
  { unfold TTLedDict.reads_clock in Hn1. unfold valid_at in Hv1, Hv2.
    rewrite Hk in Hn1, Hv1, Hv2. rewrite negb_true_iff in Hv1, Hv2.
    destruct (negb (Z.eqb i 0)); now rewrite Hn1. }
  rewrite (getitem_live _ h d i v Hk Hlive).
  eexists. split; [reflexivity |].
  destruct (TTLedDict.reads_clock h d); cbn; rewrite <- Hm, <- Hm1, Hc1, Ht1; auto.
Qed.

Lemma getitem_memory_hit_witness :
  (memory Examples.world_memory_hit =
     Some (TTLedDict.setitem 1000 "issuer.example" (PyStr "MEMKEY") (TTLedDict.init 600)) /\
   TTLedDict.items
     (TTLedDict.setitem 1000 "issuer.example" (PyStr "MEMKEY") (TTLedDict.init 600))
     !! "issuer.example" = Some (1000, PyStr "MEMKEY") /\
   valid_at (clock Examples.env (ticks Examples.world_memory_hit)) "issuer.example"
     (TTLedDict.setitem 1000 "issuer.example" (PyStr "MEMKEY") (TTLedDict.init 600)) = true /\
   valid_at (clock Examples.env (S (ticks Examples.world_memory_hit))) "issuer.example"
     (TTLedDict.setitem 1000 "issuer.example" (PyStr "MEMKEY") (TTLedDict.init 600)) = true) /\
  exists w',
    CertificatesManagerWithCache.getitem Examples.env "issuer.example"
      Examples.world_memory_hit = (Ok (PyStr "MEMKEY"), w') /\
    trace w' = trace Examples.world_memory_hit /\
    memory w' = memory Examples.world_memory_hit /\
    memcache w' = memcache Examples.world_memory_hit.
Proof.
  split; [repeat split |].
  apply (getitem_memory_hit Examples.env "issuer.example" Examples.world_memory_hit
           (TTLedDict.setitem 1000 "issuer.example" (PyStr "MEMKEY") (TTLedDict.init 600))
           1000 (PyStr "MEMKEY"));
    reflexivity.
Defined.

(** The two readings of the clock matter: an entry that is valid for the
    membership test and expired for the read that follows makes the lookup
    raise [ExpiredValue]. *)
Lemma getitem_expires_between_readings (E : Env) (h : string) (w : World)
    (d : TTLedDict.t) (i : Z) (v : pyval) :
  memory w = Some d ->
  TTLedDict.items d !! h = Some (i, v) ->
  TTLedDict.expired i (TTLedDict.ttl d) (clock E (ticks w)) = false ->
  TTLedDict.expired i (TTLedDict.ttl d) (clock E (S (ticks w))) = true ->
  fst (CertificatesManagerWithCache.getitem E h w) = Raise (ExpiredValue h).
Proof.
  intros Hm Hk Hv1 Hv2.
  destruct (in_memory_hit E h w d Hm) as (w1 & Hin & Hm1 & Hc1 & Ht1 & Hn1).
  { unfold valid_at. now rewrite Hk, Hv1. }
  unfold CertificatesManagerWithCache.getitem, bind. rewrite Hin.
  unfold CertificatesManagerWithCache.memory_getitem. rewrite Hm1, Hm.
  assert (Hi : TTLedDict.reads_clock h d = true).
  { unfold TTLedDict.reads_clock. rewrite Hk.
    apply expired_true_iff in Hv2 as [Hi _].
    now apply negb_true_iff, Z.eqb_neq. }
  rewrite Hi in Hn1. rewrite Hn1.
  now rewrite (getitem_expired _ h d i v Hk Hv2).
Qed.

(** In loadtest mode the constructor leaves the record of [loadtest.local]
    in the memory tier with a timestamp of 0, so that it is returned at
    every time, without a call to the origin. *)
Lemma loadtest_record_never_expires (E : Env) (w0 : World) :
  exists w d,
    CertificatesManagerWithCache.init E None None true w0 = (Ok tt, w) /\
    trace w = trace w0 /\
    memory w = Some d /\
    TTLedDict.items d !! "loadtest.local" =
      Some (0, support_fetch_public_key E "loadtest.local") /\
    forall now,
      TTLedDict.getitem now "loadtest.local" d =
        (Ok (support_fetch_public_key E "loadtest.local"), d).
Proof.
  unfold CertificatesManagerWithCache.init, bind,
    CertificatesManagerWithCache.memory_setitem,
    CertificatesManagerWithCache.memory_set_ttl, TTLedDict.set_ttl.
  cbn. rewrite lookup_insert_eq. cbn.
  do 2 eexists. split; [reflexivity |]. cbn.
  split; [reflexivity |]. split; [reflexivity |].
  split; [apply lookup_insert_eq |].
  intros now. apply getitem_zero_stamp. cbn. apply lookup_insert_eq.
Qed.

(** The shared-tier test: a disabled tier answers [false] without a call;
    an enabled one is asked once. *)
Lemma in_memcache_eval (h : string) (w : World) :
  CertificatesManagerWithCache.in_memcache h w =
    match memcache w with
    | None => (Ok false, w)
    | Some c => (Ok (MemcacheClient.contains h c), log (EvMemcacheContains h) w)
    end.
Proof.
  unfold CertificatesManagerWithCache.in_memcache, bind,
    CertificatesManagerWithCache.memcache_truthy,
    CertificatesManagerWithCache.memcache_contains.
  destruct (memcache w) eqn:Hc; [now rewrite Hc | reflexivity].
Qed.

(** C6. When the memory tier is configured and does not serve the
    hostname (the entry is missing, or expired at the reading taken by the
    membership test) and the shared tier is configured and holds it, the
    lookup returns the shared tier's value and stores exactly that value in
    the memory tier, stamped with a reading of the clock and governed by
    the store's own TTL; the shared tier is asked twice and left as it is,
    and the origin is not called. *)
Theorem getitem_memcache_hit (E : Env) (h : string) (w : World)
    (d : TTLedDict.t) (c : MemcacheClient.t) (v : pyval) (tm : Z) :
  memory w = Some d ->
  valid_at (clock E (ticks w)) h d = false ->
  memcache w = Some c ->
  MemcacheClient.items c !! h = Some (v, tm) ->
  exists w' d' n,
    CertificatesManagerWithCache.getitem E h w = (Ok v, w') /\
    memory w' = Some d' /\
    d' = TTLedDict.setitem (clock E n) h v d /\
    TTLedDict.items d' !! h = Some (clock E n, v) /\
    TTLedDict.ttl d' = TTLedDict.ttl d /\
    (ticks w <= n < ticks w')%nat /\
    memcache w' = memcache w /\
    trace w' = EvMemcacheGet h :: EvMemcacheContains h :: trace w /\
    fetch_count (trace w') = fetch_count (trace w).
Proof.
  intros Hm Hv Hc Hk.
  destruct (in_memory_miss E h w) as (w1 & Hin & Hm1 & Hc1 & Ht1 & Hn1).
  { intros d0 Hd0. rewrite Hm in Hd0. now injection Hd0 as <-. }
  rewrite Hm in Hm1. cbn in Hm1.
  unfold CertificatesManagerWithCache.getitem, bind.
  rewrite Hin, in_memcache_eval, Hc1, Hc.
  unfold MemcacheClient.contains. rewrite Hk.
  destruct w1 as [m1 c1 n1 t1]. cbn in Hm1, Hc1, Ht1, Hn1. subst m1 c1 t1.
  unfold CertificatesManagerWithCache.from_memcache, bind,
    CertificatesManagerWithCache.memcache_get,
    CertificatesManagerWithCache.memory_setitem, ret, MemcacheClient.get.
  cbn. rewrite Hc, Hk.
  eexists. exists (TTLedDict.setitem (clock E n1) h v d). exists n1.
  split.
  - unfold TTLedDict.setitem. cbn. rewrite insert_delete_eq. reflexivity.
  - cbn. repeat split; first [reflexivity | apply lookup_insert_eq | lia].
Qed.

Lemma getitem_memcache_hit_witness :
  (memory Examples.world_shared_hit = Some (TTLedDict.init 600) /\
   valid_at (clock Examples.env (ticks Examples.world_shared_hit)) "issuer.example"
     (TTLedDict.init 600) = false /\
   memcache Examples.world_shared_hit = Some Examples.shared_with_host /\
   MemcacheClient.items Examples.shared_with_host !! "issuer.example" =
     Some (PyStr "SHAREDKEY", 3600)) /\
  exists w' d' n,
    CertificatesManagerWithCache.getitem Examples.env "issuer.example"
      Examples.world_shared_hit = (Ok (PyStr "SHAREDKEY"), w') /\
    memory w' = Some d' /\
    d' = TTLedDict.setitem (clock Examples.env n) "issuer.example" (PyStr "SHAREDKEY")
           (TTLedDict.init 600) /\
    TTLedDict.items d' !! "issuer.example" = Some (clock Examples.env n, PyStr "SHAREDKEY") /\
    TTLedDict.ttl d' = TTLedDict.ttl (TTLedDict.init 600) /\
    (ticks Examples.world_shared_hit <= n < ticks w')%nat /\
    memcache w' = memcache Examples.world_shared_hit /\
    trace w' = EvMemcacheGet "issuer.example" :: EvMemcacheContains "issuer.example"
                 :: trace Examples.world_shared_hit /\
    fetch_count (trace w') = fetch_count (trace Examples.world_shared_hit).
Proof.
  split; [repeat split |].
  apply (getitem_memcache_hit Examples.env "issuer.example" Examples.world_shared_hit
           (TTLedDict.init 600) Examples.shared_with_host (PyStr "SHAREDKEY") 3600);
    reflexivity.
Defined.

(** When neither tier serves the hostname the lookup is the origin's
    answer. The origin is called once, after the shared tier (if there is
    one) was asked once. A key that was fetched is written to each
    configured tier; a failure writes nothing, the only change being that
    the memory tier has lost the entry of the hostname if it held an
    expired one. *)
Lemma getitem_from_origin (E : Env) (h : string) (w : World) :
  (forall d, memory w = Some d -> valid_at (clock E (ticks w)) h d = false) ->
  (forall c, memcache w = Some c -> MemcacheClient.items c !! h = None) ->
  let asked := match memcache w with Some _ => [EvMemcacheContains h] | None => [] end in
  exists w',
    CertificatesManagerWithCache.getitem E h w =
      (origin E (fetch_count (trace w)) h, w') /\
    match origin E (fetch_count (trace w)) h with
    | Ok key =>
        (exists n, (ticks w <= n)%nat /\
           memory w' = TTLedDict.setitem (clock E n) h key <$> memory w) /\
        memcache w' = MemcacheClient.setitem h key <$> memcache w /\
        trace w' =
          (match memcache w with Some _ => [EvMemcacheSet h key] | None => [] end
           ++ EvFetch h :: asked ++ trace w)%list
    | Raise e =>
        memory w' =
          (fun d => TTLedDict.mk (TTLedDict.ttl d) (delete h (TTLedDict.items d)))
            <$> memory w /\
        memcache w' = memcache w /\
        trace w' = (EvFetch h :: asked ++ trace w)%list
    end.
Proof.
  intros Hv Hc asked.
  destruct (in_memory_miss E h w Hv) as (w1 & Hin & Hm1 & Hc1 & Ht1 & Hn1).
  unfold CertificatesManagerWithCache.getitem, bind.
  rewrite Hin, in_memcache_eval, Hc1.
  destruct w1 as [m1 c1 n1 t1]. cbn in Hm1, Hc1, Ht1, Hn1. subst m1 c1 t1.
  assert (Hcount : forall tr,
    fetch_count (asked ++ tr)%list = fetch_count tr).
  { intros tr. subst asked. now destruct (memcache w). }
  unfold CertificatesManagerWithCache.from_origin, bind,
    CertificatesManagerWithCache.fetch_public_key,
    CertificatesManagerWithCache.memcache_is_not_False,
    CertificatesManagerWithCache.memory_is_not_False,
    CertificatesManagerWithCache.memcache_setitem,
    CertificatesManagerWithCache.memory_setitem, ret.
  specialize (Hcount (trace w)). subst asked.
  destruct (memcache w) as [c |] eqn:Ec.
  - unfold MemcacheClient.contains. rewrite (Hc c eq_refl). cbn.
    cbn in Hcount. unfold fetch_count in Hcount |- *. cbn.
    destruct (origin E (length (List.filter is_fetch (trace w))) h) as [key | e];
      cbn.
    + destruct (memory w) as [d |] eqn:Em; cbn.
      * eexists. split; [reflexivity |]. cbn. split; [| auto].
        exists n1. split; [exact Hn1 |].
        unfold TTLedDict.setitem. cbn. now rewrite insert_delete_eq.
      * eexists. split; [reflexivity |]. cbn. split; [| auto].
        exists n1. auto.
    + eexists. split; [reflexivity |]. cbn. auto.
  - cbn. unfold fetch_count. cbn.
    destruct (origin E (length (List.filter is_fetch (trace w))) h) as [key | e];
      cbn.
    + destruct (memory w) as [d |] eqn:Em; cbn.
      * eexists. split; [reflexivity |]. cbn. split; [| auto].
        exists n1. split; [exact Hn1 |].
        unfold TTLedDict.setitem. cbn. now rewrite insert_delete_eq.
      * eexists. split; [reflexivity |]. cbn. split; [| auto].
        exists n1. auto.
    + eexists. split; [reflexivity |]. cbn. auto.
Qed.

(** A store without an entry for the key does not serve it, at any time. *)
Lemma valid_at_missing (now : Z) (key : string) (d : TTLedDict.t) :
  TTLedDict.items d !! key = None -> valid_at now key d = false.
Proof. intros H. unfold valid_at. now rewrite H. Qed.

(** The events recorded by a lookup that reaches the origin hold one
    fetch. *)
Lemma origin_trace_shape (h : string) (w : World) (key : option pyval) :
  let asked := match memcache w with Some _ => [EvMemcacheContains h] | None => [] end in
  let stored :=
    match key, memcache w with
    | Some k, Some _ => [EvMemcacheSet h k]
    | _, _ => []
    end in
  List.filter is_fetch (stored ++ EvFetch h :: asked)%list = [EvFetch h].
Proof. destruct key, (memcache w); reflexivity. Qed.

(** C7. When the hostname is absent from the memory tier and from the
    shared tier (a disabled tier holds nothing), the lookup is the answer
    of the origin, which is called exactly once; when the origin returns a
    key, the lookup returns it and each configured tier holds it
    afterwards: the memory tier under a reading of the clock and the
    store's TTL, the shared tier under the client's TTL. *)
Theorem getitem_both_miss (E : Env) (h : string) (w : World) :
  (forall d, memory w = Some d -> TTLedDict.items d !! h = None) ->
  (forall c, memcache w = Some c -> MemcacheClient.items c !! h = None) ->
  exists w',
    CertificatesManagerWithCache.getitem E h w =
      (origin E (fetch_count (trace w)) h, w') /\
    (exists new, trace w' = (new ++ trace w)%list /\
                 List.filter is_fetch new = [EvFetch h]) /\
    fetch_count (trace w') = S (fetch_count (trace w)) /\
    forall key, origin E (fetch_count (trace w)) h = Ok key ->
      CertificatesManagerWithCache.getitem E h w = (Ok key, w') /\
      (forall d, memory w = Some d ->
         exists d' n, memory w' = Some d' /\
                      TTLedDict.items d' !! h = Some (clock E n, key) /\
                      TTLedDict.ttl d' = TTLedDict.ttl d) /\
      (forall c, memcache w = Some c ->
         exists c', memcache w' = Some c' /\
                    MemcacheClient.items c' !! h = Some (key, MemcacheClient.ttl c) /\
                    MemcacheClient.get h c' = key) /\
      (memory w = None -> memory w' = None) /\
      (memcache w = None -> memcache w' = None).
Proof.
  intros Hmem Hmc.
  destruct (getitem_from_origin E h w) as (w' & Hget & Hres); [| exact Hmc |].
  { intros d Hd. apply valid_at_missing, (Hmem d Hd). }
  exists w'. split; [exact Hget |].
  assert (Hnew : exists new, trace w' = (new ++ trace w)%list /\
                             List.filter is_fetch new = [EvFetch h]).
  { destruct (origin E (fetch_count (trace w)) h) as [key | e].
    - destruct Hres as (_ & _ & Ht).
      eexists. split.
      + rewrite Ht, app_comm_cons, app_assoc. reflexivity.
      + exact (origin_trace_shape h w (Some key)).
    - destruct Hres as (_ & _ & Ht).
      eexists. split.
      + rewrite Ht, app_comm_cons. reflexivity.
      + exact (origin_trace_shape h w None). }
  split; [exact Hnew |]. split.
  { destruct Hnew as (new & -> & Hf).
    rewrite fetch_count_app. unfold fetch_count at 1. now rewrite Hf. }
  intros key Hkey. rewrite Hkey in Hget, Hres.
  destruct Hres as ((n & _ & Hm') & Hc' & _).
  split; [exact Hget |]. repeat split.
  - intros d Hd. rewrite Hd in Hm'. cbn in Hm'.
    eexists. exists n. split; [exact Hm' |]. cbn.
    split; [apply lookup_insert_eq | reflexivity].
  - intros c Hc. rewrite Hc in Hc'. cbn in Hc'.
    eexists. split; [exact Hc' |].
    unfold MemcacheClient.get, MemcacheClient.setitem, MemcacheClient.set. cbn.
    rewrite lookup_insert_eq. split; reflexivity.
  - intros Hn. now rewrite Hn in Hm'.
  - intros Hn. now rewrite Hn in Hc'.
Qed.

Lemma getitem_both_miss_witness :
  ((forall d, memory Examples.world_empty = Some d ->
      TTLedDict.items d !! "issuer.example" = None) /\
   (forall c, memcache Examples.world_empty = Some c ->
      MemcacheClient.items c !! "issuer.example" = None)) /\
  exists w',
    CertificatesManagerWithCache.getitem Examples.env "issuer.example" Examples.world_empty =
      (origin Examples.env (fetch_count (trace Examples.world_empty)) "issuer.example", w') /\
    (exists new, trace w' = (new ++ trace Examples.world_empty)%list /\
                 List.filter is_fetch new = [EvFetch "issuer.example"]) /\
    fetch_count (trace w') = S (fetch_count (trace Examples.world_empty)) /\
    forall key,
      origin Examples.env (fetch_count (trace Examples.world_empty)) "issuer.example" = Ok key ->
      CertificatesManagerWithCache.getitem Examples.env "issuer.example" Examples.world_empty =
        (Ok key, w') /\
      (forall d, memory Examples.world_empty = Some d ->
         exists d' n, memory w' = Some d' /\
                      TTLedDict.items d' !! "issuer.example" = Some (clock Examples.env n, key) /\
                      TTLedDict.ttl d' = TTLedDict.ttl d) /\
      (forall c, memcache Examples.world_empty = Some c ->
         exists c', memcache w' = Some c' /\
                    MemcacheClient.items c' !! "issuer.example" =
                      Some (key, MemcacheClient.ttl c) /\
                    MemcacheClient.get "issuer.example" c' = key) /\
      (memory Examples.world_empty = None -> memory w' = None) /\
      (memcache Examples.world_empty = None -> memcache w' = None).
Proof.
  assert (H1 : forall d, memory Examples.world_empty = Some d ->
                 TTLedDict.items d !! "issuer.example" = None).
  { intros d Hd. injection Hd as <-. reflexivity. }
  assert (H2 : forall c, memcache Examples.world_empty = Some c ->
                 MemcacheClient.items c !! "issuer.example" = None).
  { intros c Hc. injection Hc as <-. reflexivity. }
  split; [split; assumption |].
  exact (getitem_both_miss Examples.env "issuer.example" Examples.world_empty H1 H2).
Defined.

(** C8 (counterexample). The memory tier holds an entry for the hostname
    that has expired; the origin fails. The lookup raises the origin's
    error, and the memory tier has changed for that hostname: the entry
    has been removed. *)
Lemma failed_fetch_evicts_stale_entry :
  exists e w' d d',
    origin Examples.env (fetch_count (trace Examples.world_stale)) "other.example" =
      Raise e /\
    CertificatesManagerWithCache.getitem Examples.env "other.example"
      Examples.world_stale = (Raise e, w') /\
    memory Examples.world_stale = Some d /\
    TTLedDict.items d !! "other.example" = Some (100, PyStr "OLDKEY") /\
    memory w' = Some d' /\
    TTLedDict.items d' !! "other.example" = None /\
    memory w' <> memory Examples.world_stale.
Proof.
  do 4 eexists.
  split; [reflexivity |]. split; [vm_compute; reflexivity |].
  split; [reflexivity |]. split; [reflexivity |].
  split; [reflexivity |]. split; [reflexivity |].
  vm_compute. discriminate.
Qed.

(** C8 (amended). When neither tier serves the hostname and the origin
    fails, the lookup raises the origin's error and writes nothing: the
    shared tier is as before, and the memory tier is as before except that
    an expired entry of the hostname has been removed by the membership
    test (a tier in which the hostname was absent is unchanged). Neither
    tier holds the hostname afterwards, and the next lookup of the
    hostname calls the origin again. *)
Theorem getitem_origin_failure (E : Env) (h : string) (w : World) (e : exn) :
  (forall d, memory w = Some d -> valid_at (clock E (ticks w)) h d = false) ->
  (forall c, memcache w = Some c -> MemcacheClient.items c !! h = None) ->
  origin E (fetch_count (trace w)) h = Raise e ->
  exists w',
    CertificatesManagerWithCache.getitem E h w = (Raise e, w') /\
    memcache w' = memcache w /\
    memory w' =
      (fun d => TTLedDict.mk (TTLedDict.ttl d) (delete h (TTLedDict.items d)))
        <$> memory w /\
    (forall d, memory w = Some d -> TTLedDict.items d !! h = None ->
       memory w' = memory w) /\
    (forall d', memory w' = Some d' -> TTLedDict.items d' !! h = None) /\
    (forall c', memcache w' = Some c' -> MemcacheClient.items c' !! h = None) /\
    exists w'',
      CertificatesManagerWithCache.getitem E h w' =
        (origin E (fetch_count (trace w')) h, w'') /\
      fetch_count (trace w'') = S (fetch_count (trace w')).
Proof.
  intros Hmem Hmc Hfail.
  destruct (getitem_from_origin E h w Hmem Hmc) as (w' & Hget & Hres).
  rewrite Hfail in Hget, Hres. destruct Hres as (Hm' & Hc' & _).
  assert (Hgone : forall d', memory w' = Some d' -> TTLedDict.items d' !! h = None).
  { intros d' Hd'. rewrite Hm' in Hd'.
    destruct (memory w) as [d |]; [| discriminate].
    injection Hd' as <-. apply lookup_delete_eq. }
  assert (Hmc' : forall c', memcache w' = Some c' -> MemcacheClient.items c' !! h = None).
  { intros c' Hc0. rewrite Hc' in Hc0. exact (Hmc c' Hc0). }
  exists w'. split; [exact Hget |]. split; [exact Hc' |]. split; [exact Hm' |].
  split.
  { intros d Hd Hk. rewrite Hm', Hd. cbn.
    rewrite delete_id by exact Hk. now rewrite store_eta. }
  split; [exact Hgone |]. split; [exact Hmc' |].
  destruct (getitem_from_origin E h w') as (w'' & Hget2 & Hres2); [| exact Hmc' |].
  { intros d' Hd'. apply valid_at_missing, (Hgone d' Hd'). }
  exists w''. split; [exact Hget2 |].
  assert (Hnew : exists new, trace w'' = (new ++ trace w')%list /\
                             List.filter is_fetch new = [EvFetch h]).
  { destruct (origin E (fetch_count (trace w')) h) as [key | e2].
    - destruct Hres2 as (_ & _ & Ht).
      eexists. split.
      + rewrite Ht, app_comm_cons, app_assoc. reflexivity.
      + exact (origin_trace_shape h w' (Some key)).
    - destruct Hres2 as (_ & _ & Ht).
      eexists. split.
      + rewrite Ht, app_comm_cons. reflexivity.
      + exact (origin_trace_shape h w' None). }
  destruct Hnew as (new & -> & Hf).
  rewrite fetch_count_app. unfold fetch_count at 1. now rewrite Hf.
Qed.

Lemma getitem_origin_failure_witness :
  ((forall d, memory Examples.world_stale = Some d ->
      valid_at (clock Examples.env (ticks Examples.world_stale)) "other.example" d =
        false) /\
   (forall c, memcache Examples.world_stale = Some c ->
      MemcacheClient.items c !! "other.example" = None) /\
   origin Examples.env (fetch_count (trace Examples.world_stale)) "other.example" =
     Raise Examples.fetch_error) /\
  exists w',
    CertificatesManagerWithCache.getitem Examples.env "other.example"
      Examples.world_stale = (Raise Examples.fetch_error, w') /\
    memcache w' = memcache Examples.world_stale /\
    memory w' =
      (fun d => TTLedDict.mk (TTLedDict.ttl d)
                  (delete "other.example" (TTLedDict.items d)))
        <$> memory Examples.world_stale /\
    (forall d, memory Examples.world_stale = Some d ->
       TTLedDict.items d !! "other.example" = None ->
       memory w' = memory Examples.world_stale) /\
    (forall d', memory w' = Some d' ->
       TTLedDict.items d' !! "other.example" = None) /\
    (forall c', memcache w' = Some c' ->
       MemcacheClient.items c' !! "other.example" = None) /\
    exists w'',
      CertificatesManagerWithCache.getitem Examples.env "other.example" w' =
        (origin Examples.env (fetch_count (trace w')) "other.example", w'') /\
      fetch_count (trace w'') = S (fetch_count (trace w')).
Proof.
  assert (H1 : forall d, memory Examples.world_stale = Some d ->
                 valid_at (clock Examples.env (ticks Examples.world_stale))
                   "other.example" d = false).
  { intros d Hd. injection Hd as <-. reflexivity. }
  assert (H2 : forall c, memcache Examples.world_stale = Some c ->
                 MemcacheClient.items c !! "other.example" = None).
  { intros c Hc. injection Hc as <-. reflexivity. }
  assert (H3 : origin Examples.env (fetch_count (trace Examples.world_stale))
                 "other.example" = Raise Examples.fetch_error).
  { reflexivity. }
  split; [repeat split; assumption |].
  exact (getitem_origin_failure Examples.env "other.example" Examples.world_stale
           Examples.fetch_error H1 H2 H3).
Defined.

(** ** The dispatcher *)

(** The name in the [except] clause of line 187 is bound neither by the
    module nor by the builtins. *)
Lemma BrowserIDError_unbound : CryptoWorker.name_bound "BrowserIDError" = false.
Proof. reflexivity. Qed.

(** Every exception raised in the [try] block of lines 184-186 leaves the
    [except] clause as a [NameError]. *)
Lemma except_clause_raises (e : exn) (w : World) :
  CryptoWorker.except_BrowserIDError e w = (Raise (NameError "BrowserIDError"), w).
Proof.
  unfold CryptoWorker.except_BrowserIDError.
  now rewrite BrowserIDError_unbound.
Qed.

(** The steps of [call] up to the invocation of the handler. *)
Lemma call_dispatches (E : Env) (job fid payload : string) (cls : ProtobufClasses)
    (fields : list (string * pyval)) (w : World) :
  CryptoWorker.split_once job = Some (fid, payload) ->
  PROTOBUF_CLASSES E fid = Some cls ->
  CryptoWorker.hasattr fid = true ->
  ParseFromString cls payload = Ok fields ->
  CryptoWorker.call E job w =
    match CryptoWorker.invoke E fid (CryptoWorker.fields_dict fields) w with
    | (Ok res, w') =>
        (Ok (CryptoWorker.Bytes (SerializeToString cls (mkResponse (Some res) None None))), w')
    | (Raise e, w') => CryptoWorker.except_BrowserIDError e w'
    end.
Proof.
  intros Hs Hc Hh Hp. unfold CryptoWorker.call.
  rewrite Hs, Hc, Hh, Hp. cbn. unfold bind, ret, try_except. cbn.
  now destruct (CryptoWorker.invoke E fid (CryptoWorker.fields_dict fields) w) as [[res | e] w'].
Qed.

(** The success half of the boundary: a handler that returns normally
    yields the serialized response whose only field is [value]. *)
Lemma call_handler_returns (E : Env) (job fid payload : string) (cls : ProtobufClasses)
    (fields : list (string * pyval)) (res : pyval) (w w' : World) :
  CryptoWorker.split_once job = Some (fid, payload) ->
  PROTOBUF_CLASSES E fid = Some cls ->
  CryptoWorker.hasattr fid = true ->
  ParseFromString cls payload = Ok fields ->
  CryptoWorker.invoke E fid (CryptoWorker.fields_dict fields) w = (Ok res, w') ->
  CryptoWorker.call E job w =
    (Ok (CryptoWorker.Bytes
           (SerializeToString cls
              {| value := Some res; error_type := None; error := None |})), w').
Proof.
  intros Hs Hc Hh Hp Hi.
  now rewrite (call_dispatches E job fid payload cls fields w Hs Hc Hh Hp), Hi.
Qed.

(** The failure half: whatever the handler raises, the domain error
    included, [call] raises [NameError] and returns no response. *)
Lemma call_handler_raises (E : Env) (job fid payload : string) (cls : ProtobufClasses)
    (fields : list (string * pyval)) (e : exn) (w w' : World) :
  CryptoWorker.split_once job = Some (fid, payload) ->
  PROTOBUF_CLASSES E fid = Some cls ->
  CryptoWorker.hasattr fid = true ->
  ParseFromString cls payload = Ok fields ->
  CryptoWorker.invoke E fid (CryptoWorker.fields_dict fields) w = (Raise e, w') ->
  CryptoWorker.call E job w = (Raise (NameError "BrowserIDError"), w').
Proof.
  intros Hs Hc Hh Hp Hi.
  rewrite (call_dispatches E job fid payload cls fields w Hs Hc Hh Hp), Hi.
  apply except_clause_raises.
Qed.

(** The body of the [except] clause builds a response object and does not
    serialize it, unlike the [return] of line 186. *)
Lemma on_BrowserIDError_not_serialized (message : string) :
  forall s, CryptoWorker.on_BrowserIDError message <> CryptoWorker.Bytes s.
Proof. intros s. discriminate. Qed.

(** C3 (the code at the failing input). The job asks to check a signature
    with a certificate that the crypto primitive rejects: the handler
    raises the domain error, and [call] raises [NameError] instead of
    returning an encoded error response. *)
Theorem call_domain_error_raises_NameError :
  CryptoWorker.invoke Examples.env "check_signature_with_cert"
    (CryptoWorker.fields_dict
       [("cert", PyStr "BADCERT"); ("signed_data", PyStr "data");
        ("signature", PyStr "sig"); ("algorithm", PyStr "RS256")])
    Examples.world_empty =
    (Raise (BrowserIDError "invalid certificate"), Examples.world_empty) /\
  CryptoWorker.call Examples.env "check_signature_with_cert::BADCERT" Examples.world_empty =
    (Raise (NameError "BrowserIDError"), Examples.world_empty).
Proof. split; reflexivity. Qed.

(** C9. A job whose function id is not an attribute of the worker makes
    [call] raise, the world unchanged: [ValueError] with the message of
    line 174 when the id has an entry in [PROTOBUF_CLASSES], the
    [KeyError] of the table lookup of line 170 when it has none. No
    response, encoded or not, is returned. *)
Theorem call_unknown_function (E : Env) (job fid payload : string) (w : World) :
  CryptoWorker.split_once job = Some (fid, payload) ->
  CryptoWorker.hasattr fid = false ->
  exists e,
    CryptoWorker.call E job w = (Raise e, w) /\
    e = match PROTOBUF_CLASSES E fid with
        | Some _ => ValueError ("the function " ++ fid ++ " does not exists")
        | None => KeyError fid
        end /\
    forall r, fst (CryptoWorker.call E job w) <> Ok r.
Proof.
  intros Hs Hh. unfold CryptoWorker.call. rewrite Hs, Hh.
  destruct (PROTOBUF_CLASSES E fid) as [cls |]; cbn;
    (eexists; split; [reflexivity |]; split; [reflexivity | discriminate]).
Qed.

Lemma call_unknown_function_witness :
  (CryptoWorker.split_once "fly::x" = Some ("fly", "x") /\
   CryptoWorker.hasattr "fly" = false) /\
  exists e,
    CryptoWorker.call Examples.env "fly::x" Examples.world_empty =
      (Raise e, Examples.world_empty) /\
    e = match PROTOBUF_CLASSES Examples.env "fly" with
        | Some _ => ValueError ("the function " ++ "fly" ++ " does not exists")
        | None => KeyError "fly"
        end /\
    forall r, fst (CryptoWorker.call Examples.env "fly::x" Examples.world_empty) <> Ok r.
Proof.
  split; [split; reflexivity |].
  apply (call_unknown_function Examples.env "fly::x" "fly" "x" Examples.world_empty);
    reflexivity.
Defined.

(** * Further properties of the module *)

(** ** The TTL store and the shared-tier client *)

(** X1. The membership test and the read agree: [key in d] is [True]
    exactly when [d[key]] returns a value, [False] exactly when it raises,
    and both leave the same store behind. *)
Theorem contains_agrees_with_getitem (now : Z) (key : string) (d : TTLedDict.t) :
  snd (TTLedDict.contains now key d) = snd (TTLedDict.getitem now key d) /\
  (fst (TTLedDict.contains now key d) = Ok true <->
     exists v, fst (TTLedDict.getitem now key d) = Ok v) /\
  (fst (TTLedDict.contains now key d) = Ok false <->
     exists e, fst (TTLedDict.getitem now key d) = Raise e).
Proof.
  unfold TTLedDict.contains, TTLedDict.getitem, TTLedDict.delitem.
  destruct (TTLedDict.items d !! key) as [[i v] |]; cbn.
  - destruct (TTLedDict.expired i (TTLedDict.ttl d) now); cbn.
    + split; [reflexivity |]. split; split.
      * discriminate.
      * intros [x Hx]. discriminate.
      * eauto.
      * reflexivity.
    + split; [reflexivity |]. split; split.
      * eauto.
      * reflexivity.
      * discriminate.
      * intros [x Hx]. discriminate.
  - split; [reflexivity |]. split; split.
    + discriminate.
    + intros [x Hx]. discriminate.
    + eauto.
    + reflexivity.
Qed.

(** X2. A read never changes the store's TTL nor the entry of another
    key, and never adds an entry; the store is changed only by a read that
    signals Expired, which removes the entry that was read. *)
Theorem store_read_frame (now : Z) (key : string) (d : TTLedDict.t) :
  let r := fst (TTLedDict.getitem now key d) in
  let d' := snd (TTLedDict.getitem now key d) in
  TTLedDict.ttl d' = TTLedDict.ttl d /\
  (forall k, k <> key -> TTLedDict.items d' !! k = TTLedDict.items d !! k) /\
  (forall k, TTLedDict.items d !! k = None -> TTLedDict.items d' !! k = None) /\
  (r <> Raise (ExpiredValue key) -> d' = d) /\
  (r = Raise (ExpiredValue key) -> TTLedDict.items d' !! key = None).
Proof.
  unfold TTLedDict.getitem, TTLedDict.delitem.
  destruct (TTLedDict.items d !! key) as [[i v] |] eqn:Hk; cbn.
  - destruct (TTLedDict.expired i (TTLedDict.ttl d) now); cbn.
    + split; [reflexivity |].
      split; [intros k Hne; now rewrite lookup_delete_ne |].
      split.
      * intros k Hn. destruct (decide (key = k)) as [-> | Hne].
        -- apply lookup_delete_eq.
        -- now rewrite lookup_delete_ne.
      * split; [congruence |]. intros _. apply lookup_delete_eq.
    + repeat split; auto; discriminate.
  - repeat split; auto; discriminate.
Qed.

(** X3. Expiry only moves forward in time: an entry that is returned when
    the clock reads [now] is returned, the store unchanged, at every
    earlier reading. *)
Theorem getitem_live_at_earlier_time (now earlier : Z) (key : string)
    (d : TTLedDict.t) (v : pyval) :
  fst (TTLedDict.getitem now key d) = Ok v ->
  earlier <= now ->
  TTLedDict.getitem earlier key d = (Ok v, d).
Proof.
  unfold TTLedDict.getitem, TTLedDict.delitem.
  destruct (TTLedDict.items d !! key) as [[i u] |]; [| discriminate].
  destruct (TTLedDict.expired i (TTLedDict.ttl d) now) eqn:He; [discriminate |].
  cbn. intros [= ->] Hle.
  apply expired_false_iff in He.
  assert (He' : TTLedDict.expired i (TTLedDict.ttl d) earlier = false).
  { apply expired_false_iff. lia. }
  now rewrite He'.
Qed.

Lemma getitem_live_at_earlier_time_witness :
  (fst (TTLedDict.getitem 1600 "k" Examples.store) = Ok (PyStr "v") /\ 1200 <= 1600) /\
  TTLedDict.getitem 1200 "k" Examples.store = (Ok (PyStr "v"), Examples.store).
Proof.
  split; [split; [reflexivity | lia] |].
  apply (getitem_live_at_earlier_time 1600 1200 "k" Examples.store (PyStr "v"));
    [reflexivity | lia].
Defined.

(** X4. Writing one key does not disturb the read of another: the read
    gives the same outcome as before the write, and the two effects on the
    store commute. *)
Theorem getitem_setitem_other_key (now t : Z) (key other : string) (v : pyval)
    (d : TTLedDict.t) :
  key <> other ->
  TTLedDict.getitem now other (TTLedDict.setitem t key v d) =
    (fst (TTLedDict.getitem now other d),
     TTLedDict.setitem t key v (snd (TTLedDict.getitem now other d))).
Proof.
  intros Hne. unfold TTLedDict.getitem, TTLedDict.delitem, TTLedDict.setitem. cbn.
  rewrite lookup_insert_ne by exact Hne.
  destruct (TTLedDict.items d !! other) as [[i u] |]; [| reflexivity].
  destruct (TTLedDict.expired i (TTLedDict.ttl d) now); [| reflexivity].
  cbn. now rewrite delete_insert_ne by congruence.
Qed.

Lemma getitem_setitem_other_key_witness :
  "j" <> "k" /\
  TTLedDict.getitem 1700 "k" (TTLedDict.setitem 1650 "j" (PyStr "u") Examples.store) =
    (fst (TTLedDict.getitem 1700 "k" Examples.store),
     TTLedDict.setitem 1650 "j" (PyStr "u")
       (snd (TTLedDict.getitem 1700 "k" Examples.store))).
Proof.
  split; [discriminate |].
  apply (getitem_setitem_other_key 1700 1650 "j" "k" (PyStr "u") Examples.store).
  discriminate.
Defined.

(** X5. A value written to the shared tier is the one read back and makes
    the key present; it is stored with the expiry time given, or with the
    client's TTL when none is given; the client's TTL and the other keys
    are untouched. *)
Theorem memcache_set_get (key : string) (v : pyval) (time : option Z)
    (c : MemcacheClient.t) :
  let c' := MemcacheClient.set key v time c in
  MemcacheClient.get key c' = v /\
  MemcacheClient.contains key c' = true /\
  MemcacheClient.items c' !! key = Some (v, default (MemcacheClient.ttl c) time) /\
  MemcacheClient.ttl c' = MemcacheClient.ttl c /\
  forall k, k <> key ->
    MemcacheClient.get k c' = MemcacheClient.get k c /\
    MemcacheClient.contains k c' = MemcacheClient.contains k c.
Proof.
  unfold MemcacheClient.set, MemcacheClient.get, MemcacheClient.contains. cbn.
  rewrite lookup_insert_eq.
  repeat split; now rewrite lookup_insert_ne by congruence.
Qed.

(** ** The lookup as a whole *)

(** Case analysis of a lookup: every [match] and [if] of the unfolded
    computation is split, and the outcome is read off each branch. *)
Ltac unfold_lookup H :=
  unfold CertificatesManagerWithCache.getitem, CertificatesManagerWithCache.in_memory,
    CertificatesManagerWithCache.in_memcache, CertificatesManagerWithCache.from_memcache,
    CertificatesManagerWithCache.from_origin, bind, ret,
    CertificatesManagerWithCache.memory_truthy,
    CertificatesManagerWithCache.memory_contains,
    CertificatesManagerWithCache.memory_getitem,
    CertificatesManagerWithCache.memory_setitem,
    CertificatesManagerWithCache.memcache_truthy,
    CertificatesManagerWithCache.memcache_contains,
    CertificatesManagerWithCache.memcache_get,
    CertificatesManagerWithCache.memcache_setitem,
    CertificatesManagerWithCache.fetch_public_key,
    CertificatesManagerWithCache.memcache_is_not_False,
    CertificatesManagerWithCache.memory_is_not_False in H.

Ltac split_cases H :=
  repeat
    match type of H with
    | context [match ?x with _ => _ end] =>
        lazymatch x with
        | context [match _ with _ => _ end] => fail
        | context [if _ then _ else _] => fail
        | _ => destruct x eqn:?; cbn in H
        end
    | context [if ?x then _ else _] =>
        lazymatch x with
        | context [match _ with _ => _ end] => fail
        | context [if _ then _ else _] => fail
        | _ => destruct x eqn:?; cbn in H
        end
    end.

Ltac lookup_cases H :=
  unfold_lookup H;
  match type of H with
  | context [memory ?w] => destruct w as [[?d |] [?c |] ?n ?t]
  end;
  cbn in H;
  unfold TTLedDict.contains, TTLedDict.getitem, TTLedDict.delitem,
    TTLedDict.reads_clock in H;
  split_cases H; try discriminate H;
  injection H as <- <-; cbn.

Ltac new_events :=
  first [ exists (@nil Event); split; [reflexivity |]
        | eexists [_]; split; [reflexivity |]
        | eexists [_; _]; split; [reflexivity |]
        | eexists [_; _; _]; split; [reflexivity |] ].

(** The lookup of a hostname whose entry in the memory tier is valid at
    the two readings of the clock returns the value of the entry and
    changes neither the tiers nor the trace. *)
Lemma getitem_served_from_memory (E : Env) (h : string) (w : World)
    (d : TTLedDict.t) (i : Z) (v : pyval) :
  memory w = Some d ->
  TTLedDict.items d !! h = Some (i, v) ->
  valid_at (clock E (ticks w)) h d = true ->
  valid_at (clock E (S (ticks w))) h d = true ->
  exists w',
    CertificatesManagerWithCache.getitem E h w = (Ok v, w') /\
    trace w' = trace w /\ memory w' = memory w /\ memcache w' = memcache w.
Proof.
  intros Hm Hk Hv1 Hv2.
  destruct (in_memory_hit E h w d Hm Hv1) as (w1 & Hin & Hm1 & Hc1 & Ht1 & Hn1).
  unfold CertificatesManagerWithCache.getitem, bind. rewrite Hin.
  unfold CertificatesManagerWithCache.memory_getitem. rewrite Hm1, Hm.
  assert (Hlive : TTLedDict.expired i (TTLedDict.ttl d) (clock E (ticks w1)) = false).
  { unfold TTLedDict.reads_clock in Hn1. unfold valid_at in Hv1, Hv2.
    rewrite Hk in Hn1, Hv1, Hv2. rewrite negb_true_iff in Hv1, Hv2.
    destruct (negb (Z.eqb i 0)); now rewrite Hn1. }
  rewrite (getitem_live _ h d i v Hk Hlive).
  eexists. split; [reflexivity |].
  destruct (TTLedDict.reads_clock h d); cbn; rewrite <- Hm, <- Hm1, Hc1, Ht1; auto.
Qed.

(** X6. A lookup of one hostname leaves the rest alone: a tier that is
    disabled stays disabled, a tier that is configured stays configured
    with the same TTL, and in both tiers the entry of every other hostname
    is what it was, whatever the outcome of the lookup. *)
Theorem lookup_frame (E : Env) (h : string) (w : World) :
  let w' := snd (CertificatesManagerWithCache.getitem E h w) in
  match memory w with
  | None => memory w' = None
  | Some d =>
      exists d', memory w' = Some d' /\
                 TTLedDict.ttl d' = TTLedDict.ttl d /\
                 forall k, k <> h -> TTLedDict.items d' !! k = TTLedDict.items d !! k
  end /\
  match memcache w with
  | None => memcache w' = None
  | Some c =>
      exists c', memcache w' = Some c' /\
                 MemcacheClient.ttl c' = MemcacheClient.ttl c /\
                 forall k, k <> h ->
                   MemcacheClient.items c' !! k = MemcacheClient.items c !! k
  end.
Proof.
  destruct (CertificatesManagerWithCache.getitem E h w) as [r w'] eqn:H.
  cbn [snd]. lookup_cases H.
  all: split; try reflexivity.
  all: eexists; (split; [reflexivity |]); (split; [reflexivity |]).
  all: intros k Hk; cbn;
    rewrite ?lookup_insert_ne, ?lookup_delete_ne by congruence; reflexivity.
Qed.

(** X7. A lookup only adds to the trace of outside calls: it calls the
    origin at most once, every call it makes is about the hostname looked
    up, and without a shared tier it makes no call but the fetch; it reads
    the clock at most twice. *)
Theorem lookup_trace (E : Env) (h : string) (w : World) :
  let w' := snd (CertificatesManagerWithCache.getitem E h w) in
  (exists new,
     trace w' = (new ++ trace w)%list /\
     (fetch_count new <= 1)%nat /\
     Forall (fun ev => event_key ev = h) new /\
     (memcache w = None -> Forall (fun ev => is_fetch ev = true) new)) /\
  (ticks w <= ticks w' <= ticks w + 2)%nat.
Proof.
  destruct (CertificatesManagerWithCache.getitem E h w) as [r w'] eqn:H.
  cbn [snd]. lookup_cases H.
  all: split; [| lia].
  all: new_events.
  all: split; [cbn; lia |].
  all: split; [repeat constructor |].
  all: intros; try discriminate; repeat constructor.
Qed.

(** X8. A lookup that returns while a memory tier is configured leaves the
    returned key in that tier under the hostname, whichever tier or origin
    it came from. *)
Theorem lookup_fills_memory (E : Env) (h : string) (w w' : World) (key : pyval)
    (d : TTLedDict.t) :
  CertificatesManagerWithCache.getitem E h w = (Ok key, w') ->
  memory w = Some d ->
  exists d' i,
    memory w' = Some d' /\ TTLedDict.items d' !! h = Some (i, key).
Proof.
  intros H Hm. lookup_cases H; cbn in Hm; try discriminate Hm.
  all: eexists; eexists; (split; [reflexivity |]); cbn.
  all: first [ apply lookup_insert_eq | eassumption ].
Qed.

Lemma lookup_fills_memory_witness :
  (CertificatesManagerWithCache.getitem Examples.env "issuer.example"
     Examples.world_shared_hit =
     (Ok (PyStr "SHAREDKEY"),
      snd (CertificatesManagerWithCache.getitem Examples.env "issuer.example"
             Examples.world_shared_hit)) /\
   memory Examples.world_shared_hit = Some (TTLedDict.init 600)) /\
  exists d' i,
    memory (snd (CertificatesManagerWithCache.getitem Examples.env "issuer.example"
                   Examples.world_shared_hit)) = Some d' /\
    TTLedDict.items d' !! "issuer.example" = Some (i, PyStr "SHAREDKEY").
Proof.
  split; [split; reflexivity |].
  apply (lookup_fills_memory Examples.env "issuer.example" Examples.world_shared_hit
           _ (PyStr "SHAREDKEY") (TTLedDict.init 600)); reflexivity.
Defined.

(** X9. A lookup that returned a key is followed, while the entry it left
    in the memory tier is unexpired at the readings of the clock, by a
    lookup that returns the same key from the memory tier: the second
    lookup calls neither the shared tier nor the origin and changes
    neither tier. *)
Theorem lookup_repeat_hits_memory (E : Env) (h : string) (w w' : World)
    (key : pyval) (d : TTLedDict.t) :
  CertificatesManagerWithCache.getitem E h w = (Ok key, w') ->
  memory w = Some d ->
  (forall d', memory w' = Some d' ->
     valid_at (clock E (ticks w')) h d' = true /\
     valid_at (clock E (S (ticks w'))) h d' = true) ->
  exists w'',
    CertificatesManagerWithCache.getitem E h w' = (Ok key, w'') /\
    trace w'' = trace w' /\ memory w'' = memory w' /\ memcache w'' = memcache w'.
Proof.
  intros H Hm Hvalid.
  assert (Hpost : exists d' i,
            memory w' = Some d' /\ TTLedDict.items d' !! h = Some (i, key)).
  { clear Hvalid. lookup_cases H; cbn in Hm; try discriminate Hm.
    all: eexists; eexists; (split; [reflexivity |]); cbn.
    all: first [ apply lookup_insert_eq | eassumption ]. }
  destruct Hpost as (d' & i & Hm' & Hk').
  destruct (Hvalid d' Hm') as [Hv1 Hv2].
  exact (getitem_served_from_memory E h w' d' i key Hm' Hk' Hv1 Hv2).
Qed.

Lemma lookup_repeat_hits_memory_witness :
  (CertificatesManagerWithCache.getitem Samples.env_still "issuer.example"
     Examples.world_empty =
     (Ok (PyStr "PUBKEY"),
      snd (CertificatesManagerWithCache.getitem Samples.env_still "issuer.example"
             Examples.world_empty)) /\
   memory Examples.world_empty = Some (TTLedDict.init 600)) /\
  exists w'',
    CertificatesManagerWithCache.getitem Samples.env_still "issuer.example"
      (snd (CertificatesManagerWithCache.getitem Samples.env_still "issuer.example"
              Examples.world_empty)) = (Ok (PyStr "PUBKEY"), w'') /\
    trace w'' =
      trace (snd (CertificatesManagerWithCache.getitem Samples.env_still
                    "issuer.example" Examples.world_empty)) /\
    memory w'' =
      memory (snd (CertificatesManagerWithCache.getitem Samples.env_still
                     "issuer.example" Examples.world_empty)) /\
    memcache w'' =
      memcache (snd (CertificatesManagerWithCache.getitem Samples.env_still
                       "issuer.example" Examples.world_empty)).
Proof.
  split; [split; reflexivity |].
  apply (lookup_repeat_hits_memory Samples.env_still "issuer.example"
           Examples.world_empty _ (PyStr "PUBKEY") (TTLedDict.init 600));
    [reflexivity | reflexivity |].
  intros d' Hd'. vm_compute in Hd'. injection Hd' as <-. split; reflexivity.
Defined.

(** X10. Without a memory tier a hit in the shared tier cannot be
    delivered: the shared tier is asked twice, the write to the memory
    tier on line 120 raises [TypeError], and the origin is not called. *)
Theorem lookup_memory_disabled_shared_hit (E : Env) (h : string) (w : World)
    (c : MemcacheClient.t) (v : pyval) (tm : Z) :
  memory w = None ->
  memcache w = Some c ->
  MemcacheClient.items c !! h = Some (v, tm) ->
  CertificatesManagerWithCache.getitem E h w =
    (Raise (TypeError "'bool' object does not support item assignment"),
     log (EvMemcacheGet h) (log (EvMemcacheContains h) w)).
Proof.
  intros Hm Hc Hk.
  destruct w as [m c0 n t]. cbn in Hm, Hc. subst m c0.
  unfold CertificatesManagerWithCache.getitem, CertificatesManagerWithCache.in_memory,
    CertificatesManagerWithCache.in_memcache,
    CertificatesManagerWithCache.from_memcache, bind,
    CertificatesManagerWithCache.memory_truthy,
    CertificatesManagerWithCache.memcache_truthy,
    CertificatesManagerWithCache.memcache_contains,
    CertificatesManagerWithCache.memcache_get,
    CertificatesManagerWithCache.memory_setitem, MemcacheClient.contains.
  cbn. now rewrite Hk.
Qed.

Lemma lookup_memory_disabled_shared_hit_witness :
  (memory Samples.world_no_memory = None /\
   memcache Samples.world_no_memory = Some Examples.shared_with_host /\
   MemcacheClient.items Examples.shared_with_host !! "issuer.example" =
     Some (PyStr "SHAREDKEY", 3600)) /\
  CertificatesManagerWithCache.getitem Examples.env "issuer.example"
    Samples.world_no_memory =
    (Raise (TypeError "'bool' object does not support item assignment"),
     log (EvMemcacheGet "issuer.example")
       (log (EvMemcacheContains "issuer.example") Samples.world_no_memory)).
Proof.
  split; [repeat split |].
  apply (lookup_memory_disabled_shared_hit Examples.env "issuer.example"
           Samples.world_no_memory Examples.shared_with_host (PyStr "SHAREDKEY") 3600);
    reflexivity.
Defined.

(** X11. The shared tier is written by a lookup only after the origin
    returned a key, and then with that key under the hostname: in every
    other case the shared tier is exactly what it was. *)
Theorem lookup_shared_write (E : Env) (h : string) (w : World) :
  let r := fst (CertificatesManagerWithCache.getitem E h w) in
  let w' := snd (CertificatesManagerWithCache.getitem E h w) in
  memcache w' = memcache w \/
  exists key c,
    memcache w = Some c /\
    origin E (fetch_count (trace w)) h = Ok key /\
    r = Ok key /\
    memcache w' = Some (MemcacheClient.setitem h key c).
Proof.
  destruct (CertificatesManagerWithCache.getitem E h w) as [r w'] eqn:H.
  cbn [fst snd]. lookup_cases H.
  all: first [ left; reflexivity
             | right; eexists; eexists; split; [reflexivity |];
               split; [eassumption |]; split; reflexivity ].
Qed.

(** The lookup of a hostname whose entry in the memory tier is stamped 0
    returns the value and leaves the whole state as it was. *)
Lemma getitem_permanent_entry (E : Env) (h : string) (w : World)
    (d : TTLedDict.t) (v : pyval) :
  memory w = Some d ->
  TTLedDict.items d !! h = Some (0, v) ->
  CertificatesManagerWithCache.getitem E h w = (Ok v, w).
Proof.
  intros Hm Hk.
  destruct (CertificatesManagerWithCache.getitem E h w) as [r w'] eqn:H.
  lookup_cases H; cbn in Hm; try discriminate Hm; injection Hm as ->.
  all: try match goal with
           | Ht : TTLedDict.truthy _ = false |- _ =>
               rewrite (truthy_of_lookup _ _ _ Hk) in Ht; discriminate Ht
           end.
  all: repeat match goal with
              | Ho : TTLedDict.items _ !! _ = None |- _ =>
                  rewrite Hk in Ho; discriminate Ho
              | Ho : Some (0, _) = Some (_, _) |- _ =>
                  injection Ho as ? ?; subst
              | Ho : Some _ = None |- _ => discriminate Ho
              | Ho : TTLedDict.items _ !! _ = Some (?z, _) |- _ =>
                  lazymatch z with
                  | 0 => fail
                  | _ => rewrite Hk in Ho; injection Ho as <- <-
                  end
              end.
  all: cbn in *; try discriminate.
  all: reflexivity.
Qed.

(** X12. A manager built in loadtest mode with the default tiers serves
    [loadtest.local] from the memory tier for ever: the lookup returns the
    bundled key and leaves the whole state, clock count and trace included,
    as it was, so that no reading of the clock can expire the record. *)
Theorem loadtest_lookup (E : Env) (w0 : World) :
  exists w,
    CertificatesManagerWithCache.init E None None true w0 = (Ok tt, w) /\
    trace w = trace w0 /\
    CertificatesManagerWithCache.getitem E "loadtest.local" w =
      (Ok (support_fetch_public_key E "loadtest.local"), w).
Proof.
  unfold CertificatesManagerWithCache.init, bind,
    CertificatesManagerWithCache.memory_setitem,
    CertificatesManagerWithCache.memory_set_ttl, TTLedDict.set_ttl.
  cbn. rewrite lookup_insert_eq. cbn.
  eexists. split; [reflexivity |]. split; [reflexivity |].
  eapply getitem_permanent_entry; [reflexivity |].
  cbn. apply lookup_insert_eq.
Qed.

(** ** The dispatcher, the handlers and the constructors *)

(** One step of [split_once], with the delimiter test spelled as a
    comparison of characters. *)
Lemma split_once_cons (c : ascii) (s : string) :
  CryptoWorker.split_once (String c s) =
    match s with
    | String c2 rest =>
        if Ascii.eqb c ":" && Ascii.eqb c2 ":" then Some (EmptyString, rest)
        else match CryptoWorker.split_once s with
             | Some (before, after) => Some (String c before, after)
             | None => None
             end
    | EmptyString => None
    end.
Proof.
  destruct s as [| c2 rest].
  - destruct c as [[] [] [] [] [] [] [] []]; reflexivity.
  - destruct (Ascii.eqb_spec c ":") as [-> | Hc].
    + destruct (Ascii.eqb_spec c2 ":") as [-> | Hc2]; [reflexivity |].
      destruct c2 as [[] [] [] [] [] [] [] []]; try reflexivity.
      now elim Hc2.
    + destruct c as [[] [] [] [] [] [] [] []]; try reflexivity.
      now elim Hc.
Qed.

(** X13. When [split_once] splits a message, the message is the function
    id, the delimiter and the payload, in this order, and the function id
    holds no delimiter: the split is at the first occurrence, so that the
    payload may itself contain the delimiter. *)
Theorem split_once_sound (s fid payload : string) :
  CryptoWorker.split_once s = Some (fid, payload) ->
  s = (fid ++ "::" ++ payload)%string /\
  CryptoWorker.split_once fid = None.
Proof.
  revert fid payload. induction s as [| c s IH]; intros fid payload H.
  - discriminate.
  - rewrite split_once_cons in H.
    destruct s as [| c2 rest]; [discriminate |].
    destruct (Ascii.eqb_spec c ":") as [-> | Hc].
    + destruct (Ascii.eqb_spec c2 ":") as [-> | Hc2]; cbn [andb] in H.
      * injection H as <- <-. split; reflexivity.
      * destruct (CryptoWorker.split_once (String c2 rest)) as [[b a] |] eqn:Hs;
          [| discriminate].
        injection H as <- <-.
        destruct (IH b a eq_refl) as [Heq Hnone].
        split; [cbn; now rewrite Heq |].
        rewrite split_once_cons.
        destruct b as [| b1 b']; [reflexivity |].
        cbn in Heq. injection Heq as Hb _. subst c2.
        destruct (Ascii.eqb_spec b1 ":") as [-> | _]; [now elim Hc2 |].
        cbn [andb]. now rewrite Hnone.
    + cbn [andb] in H.
      destruct (CryptoWorker.split_once (String c2 rest)) as [[b a] |] eqn:Hs;
        [| discriminate].
      injection H as <- <-.
      destruct (IH b a eq_refl) as [Heq Hnone].
      split; [cbn; now rewrite Heq |].
      rewrite split_once_cons.
      destruct b as [| b1 b']; [reflexivity |].
      destruct (Ascii.eqb_spec c ":") as [-> | _]; [now elim Hc |].
      cbn [andb]. now rewrite Hnone.
Qed.

Lemma split_once_sound_witness :
  CryptoWorker.split_once "check_signature::a::b" = Some ("check_signature", "a::b") /\
  "check_signature::a::b" = ("check_signature" ++ "::" ++ "a::b")%string /\
  CryptoWorker.split_once "check_signature" = None.
Proof.
  split; [reflexivity |].
  apply (split_once_sound "check_signature::a::b" "check_signature" "a::b").
  reflexivity.
Defined.

(** X14. Joining and splitting round-trip: for a function id that holds
    no delimiter and does not end with a colon, the message made of the
    id, the delimiter and any payload splits back into that id and that
    payload. *)
Theorem split_once_join (fid payload : string) :
  CryptoWorker.split_once fid = None ->
  (forall p, fid <> (p ++ ":")%string) ->
  CryptoWorker.split_once (fid ++ "::" ++ payload)%string = Some (fid, payload).
Proof.
  induction fid as [| c f IH]; intros Hnone Hend.
  - reflexivity.
  - change (String c f ++ "::" ++ payload)%string
      with (String c (f ++ "::" ++ payload)%string).
    rewrite split_once_cons. rewrite split_once_cons in Hnone.
    destruct f as [| c2 f'].
    + cbn. destruct (Ascii.eqb_spec c ":") as [-> | Hc]; [| reflexivity].
      now elim (Hend EmptyString).
    + change (String c2 f' ++ "::" ++ payload)%string
        with (String c2 (f' ++ "::" ++ payload)%string).
      cbv beta iota.
      destruct (Ascii.eqb c ":" && Ascii.eqb c2 ":"); [discriminate |].
      change (String c2 (f' ++ "::" ++ payload)%string)
        with (String c2 f' ++ "::" ++ payload)%string.
      rewrite IH; [reflexivity | |].
      * now destruct (CryptoWorker.split_once (String c2 f')) as [[b a] |].
      * intros p Hp. apply (Hend (String c p)). cbn. now rewrite Hp.
Qed.

Lemma split_once_join_witness :
  (CryptoWorker.split_once "derivate_key" = None /\
   (forall p, "derivate_key" <> (p ++ ":")%string)) /\
  CryptoWorker.split_once ("derivate_key" ++ "::" ++ "a::b")%string =
    Some ("derivate_key", "a::b").
Proof.
  assert (Hend : forall p, "derivate_key" <> (p ++ ":")%string).
  { intros p Hp.
    do 12 (destruct p as [| ? p]; [discriminate Hp |]; injection Hp as _ Hp).
    destruct p; discriminate Hp. }
  split; [split; [reflexivity | exact Hend] |].
  apply (split_once_join "derivate_key" "a::b"); [reflexivity | exact Hend].
Defined.

(** X15. A payload that the request class rejects stops the job before
    any handler runs and leaves the worker's state as it was: a
    [ValueError] of the parser is replaced by [ValueError('could not parse
    data')], any other exception of the parser passes unchanged. *)
Theorem call_parse_failure (E : Env) (job fid payload : string)
    (cls : ProtobufClasses) (e : exn) (w : World) :
  CryptoWorker.split_once job = Some (fid, payload) ->
  PROTOBUF_CLASSES E fid = Some cls ->
  CryptoWorker.hasattr fid = true ->
  ParseFromString cls payload = Raise e ->
  CryptoWorker.call E job w =
    (Raise match e with
           | ValueError _ => ValueError "could not parse data"
           | _ => e
           end, w).
Proof.
  intros Hs Hc Hh Hp. unfold CryptoWorker.call.
  rewrite Hs, Hc, Hh, Hp. cbn. now destruct e.
Qed.

Lemma call_parse_failure_witness :
  (CryptoWorker.split_once "derivate_key::xx" = Some ("derivate_key", "xx") /\
   PROTOBUF_CLASSES Samples.env_strict "derivate_key" =
     Some (mkProtobufClasses (fun s => Raise (ValueError "Truncated message"))
             Examples.serialize) /\
   CryptoWorker.hasattr "derivate_key" = true) /\
  CryptoWorker.call Samples.env_strict "derivate_key::xx" Examples.world_empty =
    (Raise (ValueError "could not parse data"), Examples.world_empty).
Proof.
  split; [repeat split |].
  apply (call_parse_failure Samples.env_strict "derivate_key::xx" "derivate_key" "xx"
           (mkProtobufClasses (fun s => Raise (ValueError "Truncated message"))
              Examples.serialize)
           (ValueError "Truncated message") Examples.world_empty);
    reflexivity.
Defined.

(** X16. Whatever [call] returns is the serialized success response of a
    handler that returned normally: the message was split, its function id
    has protobuf classes and is an attribute of the worker, the payload was
    parsed, and the bytes encode a response whose only field is the
    handler's result. In particular [call] never returns an error
    response, serialized or not. *)
Theorem call_returns_only_success (E : Env) (job : string) (w w' : World)
    (r : CryptoWorker.returned) :
  CryptoWorker.call E job w = (Ok r, w') ->
  exists fid payload cls fields res,
    CryptoWorker.split_once job = Some (fid, payload) /\
    PROTOBUF_CLASSES E fid = Some cls /\
    CryptoWorker.hasattr fid = true /\
    ParseFromString cls payload = Ok fields /\
    CryptoWorker.invoke E fid (CryptoWorker.fields_dict fields) w = (Ok res, w') /\
    r = CryptoWorker.Bytes
          (SerializeToString cls
             {| value := Some res; error_type := None; error := None |}).
Proof.
  unfold CryptoWorker.call. intros H.
  destruct (CryptoWorker.split_once job) as [[fid payload] |] eqn:Hs;
    [| discriminate H].
  destruct (PROTOBUF_CLASSES E fid) as [cls |] eqn:Hc; [| discriminate H].
  destruct (CryptoWorker.hasattr fid) eqn:Hh; [| discriminate H].
  destruct (ParseFromString cls payload) as [fields | e] eqn:Hp.
  - cbn in H. unfold bind, ret, try_except in H. cbn in H.
    destruct (CryptoWorker.invoke E fid (CryptoWorker.fields_dict fields) w)
      as [[res | e] w1] eqn:Hi.
    + injection H as <- <-. exists fid, payload, cls, fields, res.
      repeat split; first [assumption | reflexivity].
    + rewrite ?except_clause_raises in H. discriminate H.
  - cbn in H. destruct e; discriminate H.
Qed.

Lemma call_returns_only_success_witness :
  CryptoWorker.call Examples.env "check_signature_with_cert::PUBKEY"
    Examples.world_empty = (Ok (CryptoWorker.Bytes "value=True"), Examples.world_empty) /\
  exists fid payload cls fields res,
    CryptoWorker.split_once "check_signature_with_cert::PUBKEY" = Some (fid, payload) /\
    PROTOBUF_CLASSES Examples.env fid = Some cls /\
    CryptoWorker.hasattr fid = true /\
    ParseFromString cls payload = Ok fields /\
    CryptoWorker.invoke Examples.env fid (CryptoWorker.fields_dict fields)
      Examples.world_empty = (Ok res, Examples.world_empty) /\
    CryptoWorker.Bytes "value=True" =
      CryptoWorker.Bytes
        (SerializeToString cls
           {| value := Some res; error_type := None; error := None |}).
Proof.
  split; [reflexivity |].
  apply (call_returns_only_success Examples.env "check_signature_with_cert::PUBKEY"
           Examples.world_empty Examples.world_empty (CryptoWorker.Bytes "value=True")).
  reflexivity.
Defined.

(** X17. A job for the function id [error] never returns a response and
    never changes the worker's state, whatever the payload, the protobuf
    table and the parser do. *)
Theorem call_error_always_raises (E : Env) (payload : string) (w : World) :
  exists e, CryptoWorker.call E ("error::" ++ payload)%string w = (Raise e, w).
Proof.
  assert (Hs : CryptoWorker.split_once ("error::" ++ payload)%string =
               Some ("error", payload)) by reflexivity.
  assert (Hh : CryptoWorker.hasattr "error" = true) by reflexivity.
  unfold CryptoWorker.call. rewrite Hs.
  destruct (PROTOBUF_CLASSES E "error") as [cls |]; [| eexists; reflexivity].
  rewrite Hh. cbn [negb].
  destruct (ParseFromString cls payload) as [fields | e].
  - unfold bind, ret, try_except.
    change (CryptoWorker.invoke E "error" (CryptoWorker.fields_dict fields))
      with (CryptoWorker.error (CryptoWorker.fields_dict fields)).
    unfold CryptoWorker.error.
    destruct (CryptoWorker.bind_kwargs ["message"] (CryptoWorker.fields_dict fields))
      as [[| m [| m2 rest]] | e]; cbn; eexists; reflexivity.
  - cbn. destruct e; eexists; reflexivity.
Qed.

(** X18. Of the handlers only [check_signature] reaches the certificate
    cache: [error], [check_signature_with_cert] and [derivate_key] leave
    both tiers, the clock count and the trace as they were, whatever their
    arguments and outcome. *)
Theorem handlers_leave_cache (E : Env) (fid : string) (data : gmap string pyval)
    (w : World) :
  In fid ["error"; "check_signature_with_cert"; "derivate_key"] ->
  snd (CryptoWorker.invoke E fid data w) = w.
Proof.
  intros [<- | [<- | [<- | []]]].
  - change (CryptoWorker.invoke E "error" data) with (CryptoWorker.error data).
    unfold CryptoWorker.error.
    now destruct (CryptoWorker.bind_kwargs ["message"] data)
      as [[| m [| m2 rest]] | e].
  - change (CryptoWorker.invoke E "check_signature_with_cert" data)
      with (CryptoWorker.check_signature_with_cert E data).
    unfold CryptoWorker.check_signature_with_cert.
    destruct (CryptoWorker.bind_kwargs _ data)
      as [[| a1 [| a2 [| a3 [| a4 [| a5 rest]]]]] | e]; try reflexivity.
    unfold bind, CryptoWorker.lift.
    now destruct (json_loads E a1).
  - change (CryptoWorker.invoke E "derivate_key" data)
      with (CryptoWorker.derivate_key E data).
    unfold CryptoWorker.derivate_key.
    now destruct (CryptoWorker.bind_kwargs _ data)
      as [[| a1 [| a2 [| a3 [| a4 [| a5 [| a6 rest]]]]]] | e].
Qed.

Lemma handlers_leave_cache_witness :
  In "derivate_key" ["error"; "check_signature_with_cert"; "derivate_key"] /\
  snd (CryptoWorker.invoke Examples.env "derivate_key" Samples.signature_job
         Examples.world_memory_hit) = Examples.world_memory_hit.
Proof.
  assert (H : In "derivate_key" ["error"; "check_signature_with_cert"; "derivate_key"]).
  { right. right. left. reflexivity. }
  split; [exact H |].
  exact (handlers_leave_cache Examples.env "derivate_key" Samples.signature_job
           Examples.world_memory_hit H).
Defined.

(** X19. [check_signature] for a hostname whose key is valid in the
    memory tier is decided by the verifier on that cached key alone: the
    outcome is what [verify] says (or raises) for the cached key and the
    job's algorithm, data and signature, and neither the shared tier nor
    the origin is called. *)
Theorem check_signature_cached (E : Env) (data : gmap string pyval)
    (hostname signed_data signature algorithm : pyval) (w : World)
    (d : TTLedDict.t) (i : Z) (key : pyval) :
  CryptoWorker.bind_kwargs ["hostname"; "signed_data"; "signature"; "algorithm"] data =
    Ok [hostname; signed_data; signature; algorithm] ->
  memory w = Some d ->
  TTLedDict.items d !! str hostname = Some (i, key) ->
  valid_at (clock E (ticks w)) (str hostname) d = true ->
  valid_at (clock E (S (ticks w))) (str hostname) d = true ->
  exists w',
    CryptoWorker.check_signature E data w =
      (jwt_verify E algorithm key signed_data signature, w') /\
    trace w' = trace w /\ memory w' = memory w /\ memcache w' = memcache w.
Proof.
  intros Hargs Hm Hk Hv1 Hv2.
  destruct (getitem_served_from_memory E (str hostname) w d i key Hm Hk Hv1 Hv2)
    as (w' & Hget & Ht & Hm' & Hc').
  exists w'. unfold CryptoWorker.check_signature. rewrite Hargs.
  unfold bind, CryptoWorker.lift. rewrite Hget. auto.
Qed.

Lemma check_signature_cached_witness :
  (CryptoWorker.bind_kwargs ["hostname"; "signed_data"; "signature"; "algorithm"]
     Samples.signature_job =
     Ok [PyStr "issuer.example"; PyStr "data"; PyStr "sig"; PyStr "RS256"] /\
   memory Examples.world_memory_hit =
     Some (TTLedDict.setitem 1000 "issuer.example" (PyStr "MEMKEY") (TTLedDict.init 600))) /\
  exists w',
    CryptoWorker.check_signature Examples.env Samples.signature_job
      Examples.world_memory_hit =
      (jwt_verify Examples.env (PyStr "RS256") (PyStr "MEMKEY") (PyStr "data")
         (PyStr "sig"), w') /\
    trace w' = trace Examples.world_memory_hit /\
    memory w' = memory Examples.world_memory_hit /\
    memcache w' = memcache Examples.world_memory_hit.
Proof.
  split; [split; reflexivity |].
  apply (check_signature_cached Examples.env Samples.signature_job
           (PyStr "issuer.example") (PyStr "data") (PyStr "sig") (PyStr "RS256")
           Examples.world_memory_hit
           (TTLedDict.setitem 1000 "issuer.example" (PyStr "MEMKEY") (TTLedDict.init 600))
           1000 (PyStr "MEMKEY"));
    reflexivity.
Defined.

(** X20. A key given to [get_crypto_obj] takes precedence over a file
    name: the outcome does not depend on the file name nor on what opening
    a file does, the BIO being a memory buffer over [str(key)]. *)
Theorem get_crypto_obj_key_precedence (L L' : KeyLoading.Lib) (algo : string)
    (filename filename' : option string) (key : pyval) :
  key <> PyNone ->
  KeyLoading.RSA_load_pub_key_bio L' = KeyLoading.RSA_load_pub_key_bio L ->
  KeyLoading.DSA_load_pub_key_bio L' = KeyLoading.DSA_load_pub_key_bio L ->
  KeyLoading.get_crypto_obj L' algo filename' key =
    KeyLoading.get_crypto_obj L algo filename key /\
  KeyLoading.make_bio L filename key = Ok (KeyLoading.MemoryBuffer (str key)).
Proof.
  intros Hkey Hrsa Hdsa. unfold KeyLoading.get_crypto_obj, KeyLoading.make_bio.
  rewrite Hrsa, Hdsa.
  destruct key; [now elim Hkey | | |]; now destruct filename, filename'.
Qed.

Lemma get_crypto_obj_key_precedence_witness :
  (PyStr "PEM" <> PyNone /\
   KeyLoading.RSA_load_pub_key_bio Samples.lib = KeyLoading.RSA_load_pub_key_bio Samples.lib /\
   KeyLoading.DSA_load_pub_key_bio Samples.lib = KeyLoading.DSA_load_pub_key_bio Samples.lib) /\
  KeyLoading.get_crypto_obj Samples.lib "RS256" (Some "missing.pem") (PyStr "PEM") =
    KeyLoading.get_crypto_obj Samples.lib "RS256" None (PyStr "PEM") /\
  KeyLoading.make_bio Samples.lib None (PyStr "PEM") =
    Ok (KeyLoading.MemoryBuffer (str (PyStr "PEM"))).
Proof.
  split; [split; [discriminate | split; reflexivity] |].
  apply (get_crypto_obj_key_precedence Samples.lib Samples.lib "RS256"
           None (Some "missing.pem") (PyStr "PEM"));
    [discriminate | reflexivity | reflexivity].
Defined.

(** X21. An algorithm whose name starts neither with [RS] nor with [DS]
    never yields a key: [get_crypto_obj] and [get_certificate] raise for
    every file name and key, with [ValueError('unknown algorithm')] once
    the BIO could be made; the BIO is made first, so that a file that
    cannot be opened reports its own error. *)
Theorem get_crypto_obj_unknown_algorithm (L : KeyLoading.Lib) (algo : string)
    (filename : option string) (key : pyval) :
  String.prefix "RS" algo = false ->
  String.prefix "DS" algo = false ->
  exists e,
    KeyLoading.get_crypto_obj L algo filename key = Raise e /\
    KeyLoading.get_certificate L algo filename key = Raise e /\
    (forall bio, KeyLoading.make_bio L filename key = Ok bio ->
       e = ValueError "unknown algorithm") /\
    (forall e', filename <> None \/ key <> PyNone ->
       KeyLoading.make_bio L filename key = Raise e' -> e = e').
Proof.
  intros Hrs Hds. unfold KeyLoading.get_certificate, KeyLoading.get_crypto_obj.
  rewrite Hrs, Hds.
  destruct filename as [f |], key; cbn;
    try (eexists; repeat split; (reflexivity || (intros; congruence)));
    try (destruct (KeyLoading.BIO_openfile L f) as [bio | e0];
         eexists; repeat split; (reflexivity || (intros; congruence))).
  eexists. split; [reflexivity |]. split; [reflexivity |].
  split; [intros; congruence |].
  intros e' [H | H]; now elim H.
Qed.

Lemma get_crypto_obj_unknown_algorithm_witness :
  (String.prefix "RS" "HS256" = false /\ String.prefix "DS" "HS256" = false) /\
  exists e,
    KeyLoading.get_crypto_obj Samples.lib "HS256" (Some "key.pem") PyNone = Raise e /\
    KeyLoading.get_certificate Samples.lib "HS256" (Some "key.pem") PyNone = Raise e /\
    (forall bio, KeyLoading.make_bio Samples.lib (Some "key.pem") PyNone = Ok bio ->
       e = ValueError "unknown algorithm") /\
    (forall e', Some "key.pem" <> None \/ PyNone <> PyNone ->
       KeyLoading.make_bio Samples.lib (Some "key.pem") PyNone = Raise e' -> e = e').
Proof.
  split; [split; reflexivity |].
  apply (get_crypto_obj_unknown_algorithm Samples.lib "HS256" (Some "key.pem") PyNone);
    reflexivity.
Defined.



(** X23. Without a configuration file, a missing TTL aborts the build
    with a [KeyError] and builds nothing. A host for the shared tier
    without [memcache_ttl] is reported first, as [KeyError('memcache_ttl')];
    otherwise a missing [memory_ttl] is reported as
    [KeyError('memory_ttl')]. *)
Theorem get_crypto_worker_missing_ttl (E : Env)
    (Config : string -> result Construction.ConfigFile)
    (kwargs : Construction.Options) (w0 : World) :
  let host_without_ttl :=
    match Construction.memcache_host kwargs, Construction.memcache_ttl kwargs with
    | None, _ | Some PyNone, _ | _, Some _ => false
    | Some _, None => true
    end in
  host_without_ttl = true \/ Construction.memory_ttl kwargs = None ->
  Construction.get_crypto_worker E Config None kwargs w0 =
    (Raise (KeyError (if host_without_ttl then "memcache_ttl" else "memory_ttl")), w0).
Proof.
  destruct kwargs as [kl km kc kh]. cbn.
  unfold Construction.get_crypto_worker, Construction.build_memcache,
    Construction.build_memory. cbn.
  destruct kh as [[] |], kc, km; cbn; intros [H | H];
    first [discriminate H | reflexivity].
Qed.

Lemma get_crypto_worker_missing_ttl_witness :
  (match Construction.memcache_host Samples.kwargs_host_only,
         Construction.memcache_ttl Samples.kwargs_host_only with
   | None, _ | Some PyNone, _ | _, Some _ => false
   | Some _, None => true
   end = true \/ Construction.memory_ttl Samples.kwargs_host_only = None) /\
  Construction.get_crypto_worker Examples.env Samples.open_config None
    Samples.kwargs_host_only Examples.world_empty =
    (Raise (KeyError (if match Construction.memcache_host Samples.kwargs_host_only,
                                Construction.memcache_ttl Samples.kwargs_host_only with
                          | None, _ | Some PyNone, _ | _, Some _ => false
                          | Some _, None => true
                          end
                      then "memcache_ttl" else "memory_ttl")), Examples.world_empty).
Proof.
  assert (H : match Construction.memcache_host Samples.kwargs_host_only,
                    Construction.memcache_ttl Samples.kwargs_host_only with
              | None, _ | Some PyNone, _ | _, Some _ => false
              | Some _, None => true
              end = true \/ Construction.memory_ttl Samples.kwargs_host_only = None).
  { left. reflexivity. }
  split; [exact H |].
  exact (get_crypto_worker_missing_ttl Examples.env Samples.open_config
           Samples.kwargs_host_only Examples.world_empty H).
Defined.

(** X24. Passed as a keyword, only the boolean [True] turns the loadtest
    mode on: with a memory TTL, no shared tier and no configuration file,
    the worker is built with an empty memory tier exactly when
    [loadtest_mode] is not [True], be it another true value such as [1]. *)
Theorem get_crypto_worker_loadtest_is_True (E : Env)
    (Config : string -> result Construction.ConfigFile)
    (kwargs : Construction.Options) (z : Z) (w0 w : World) :
  Construction.memory_ttl kwargs = Some z ->
  Construction.memcache_host kwargs = None ->
  Construction.get_crypto_worker E Config None kwargs w0 = (Ok tt, w) ->
  (memory w = Some (TTLedDict.init z) <->
   Construction.loadtest_mode kwargs <> Some (PyBool true)) /\
  (Construction.loadtest_mode kwargs = Some (PyBool true) ->
   exists d, memory w = Some d /\
     TTLedDict.items d !! "loadtest.local" =
       Some (0, support_fetch_public_key E "loadtest.local")).
Proof.
  destruct kwargs as [kl km kc kh]. cbn. intros -> -> H.
  unfold Construction.get_crypto_worker, Construction.build_memcache,
    Construction.build_memory, Construction.loadtest_is_True in H. cbn in H.
  unfold CertificatesManagerWithCache.init, bind,
    CertificatesManagerWithCache.memory_setitem,
    CertificatesManagerWithCache.memory_set_ttl, TTLedDict.set_ttl in H.
  destruct kl as [[| s | [] | n] |]; cbn in H;
    rewrite ?lookup_insert_eq in H; cbn in H; injection H as <-; cbn.
  all: split; [split; [intros Hm; try congruence | intros Hl; try reflexivity] |].
  all: try (intros Hl; discriminate Hl).
  - apply (f_equal (fun m => match m with
                             | Some d => TTLedDict.items d !! "loadtest.local"
                             | None => None
                             end)) in Hm.
    unfold TTLedDict.init in Hm. cbn [TTLedDict.items] in Hm.
    rewrite lookup_insert_eq, lookup_empty in Hm. discriminate Hm.
  - now elim Hl.
  - intros _. eexists. split; [reflexivity |]. cbn. apply lookup_insert_eq.
Qed.

Lemma get_crypto_worker_loadtest_is_True_witness :
  (Construction.memory_ttl
     (Construction.mkOptions (Some (PyInt 1)) (Some 60) None None) = Some 60 /\
   Construction.memcache_host
     (Construction.mkOptions (Some (PyInt 1)) (Some 60) None None) = None /\
   Construction.get_crypto_worker Examples.env Samples.open_config None
     (Construction.mkOptions (Some (PyInt 1)) (Some 60) None None) Examples.world_empty =
     (Ok tt, mkWorld (Some (TTLedDict.init 60)) None 0 [])) /\
  (memory (mkWorld (Some (TTLedDict.init 60)) None 0 []) = Some (TTLedDict.init 60) <->
   Construction.loadtest_mode
     (Construction.mkOptions (Some (PyInt 1)) (Some 60) None None) <>
     Some (PyBool true)) /\
  (Construction.loadtest_mode
     (Construction.mkOptions (Some (PyInt 1)) (Some 60) None None) =
     Some (PyBool true) ->
   exists d, memory (mkWorld (Some (TTLedDict.init 60)) None 0 []) = Some d /\
     TTLedDict.items d !! "loadtest.local" =
       Some (0, support_fetch_public_key Examples.env "loadtest.local")).
Proof.
  split; [repeat split |].
  apply (get_crypto_worker_loadtest_is_True Examples.env Samples.open_config
           (Construction.mkOptions (Some (PyInt 1)) (Some 60) None None) 60
           Examples.world_empty (mkWorld (Some (TTLedDict.init 60)) None 0 []));
    reflexivity.
Defined.

(** X25. Once a job has been parsed and handed to a handler, every
    exception the handler raises, of whatever class, reaches the caller as
    [NameError('BrowserIDError')]; the changes the handler made to the
    cache before it raised are kept. *)
Theorem call_masks_handler_exception (E : Env) (job fid payload : string)
    (cls : ProtobufClasses) (fields : list (string * pyval)) (e : exn)
    (w w' : World) :
  CryptoWorker.split_once job = Some (fid, payload) ->
  PROTOBUF_CLASSES E fid = Some cls ->
  CryptoWorker.hasattr fid = true ->
  ParseFromString cls payload = Ok fields ->
  CryptoWorker.invoke E fid (CryptoWorker.fields_dict fields) w = (Raise e, w') ->
  CryptoWorker.call E job w = (Raise (NameError "BrowserIDError"), w').
Proof.
  intros Hs Hc Hh Hp Hi.
  rewrite (call_dispatches E job fid payload cls fields w Hs Hc Hh Hp), Hi.
  apply except_clause_raises.
Qed.

Lemma call_masks_handler_exception_witness :
  (CryptoWorker.split_once "check_signature::other.example" =
     Some ("check_signature", "other.example") /\
   CryptoWorker.hasattr "check_signature" = true /\
   fst (CryptoWorker.invoke Examples.env "check_signature"
          (CryptoWorker.fields_dict
             [("hostname", PyStr "other.example"); ("signed_data", PyStr "data");
              ("signature", PyStr "sig"); ("algorithm", PyStr "RS256")])
          Examples.world_stale) = Raise Examples.fetch_error) /\
  CryptoWorker.call Examples.env "check_signature::other.example" Examples.world_stale =
    (Raise (NameError "BrowserIDError"),
     snd (CryptoWorker.invoke Examples.env "check_signature"
            (CryptoWorker.fields_dict
               [("hostname", PyStr "other.example"); ("signed_data", PyStr "data");
                ("signature", PyStr "sig"); ("algorithm", PyStr "RS256")])
            Examples.world_stale)).
Proof.
  split; [repeat split |].
  apply (call_masks_handler_exception Examples.env "check_signature::other.example"
           "check_signature" "other.example"
           (mkProtobufClasses
              (fun s => Ok [("hostname", PyStr s); ("signed_data", PyStr "data");
                            ("signature", PyStr "sig"); ("algorithm", PyStr "RS256")])
              Examples.serialize)
           [("hostname", PyStr "other.example"); ("signed_data", PyStr "data");
            ("signature", PyStr "sig"); ("algorithm", PyStr "RS256")]
           Examples.fetch_error Examples.world_stale);
    reflexivity.
Defined.

(** X26. End to end: a [check_signature] job for a hostname whose key is
    valid in the memory tier returns the serialized response whose value
    is the verifier's verdict on the cached key, be it true or false, and
    calls neither the shared tier nor the origin. *)
Theorem call_check_signature_cached (E : Env) (job payload : string)
    (cls : ProtobufClasses) (fields : list (string * pyval))
    (hostname signed_data signature algorithm verdict : pyval) (w : World)
    (d : TTLedDict.t) (i : Z) (key : pyval) :
  CryptoWorker.split_once job = Some ("check_signature", payload) ->
  PROTOBUF_CLASSES E "check_signature" = Some cls ->
  ParseFromString cls payload = Ok fields ->
  CryptoWorker.bind_kwargs ["hostname"; "signed_data"; "signature"; "algorithm"]
    (CryptoWorker.fields_dict fields) =
    Ok [hostname; signed_data; signature; algorithm] ->
  memory w = Some d ->
  TTLedDict.items d !! str hostname = Some (i, key) ->
  valid_at (clock E (ticks w)) (str hostname) d = true ->
  valid_at (clock E (S (ticks w))) (str hostname) d = true ->
  jwt_verify E algorithm key signed_data signature = Ok verdict ->
  exists w',
    CryptoWorker.call E job w =
      (Ok (CryptoWorker.Bytes
             (SerializeToString cls
                {| value := Some verdict; error_type := None; error := None |})), w') /\
    trace w' = trace w /\ memory w' = memory w /\ memcache w' = memcache w.
Proof.
  intros Hs Hc Hp Hargs Hm Hk Hv1 Hv2 Hver.
  destruct (getitem_served_from_memory E (str hostname) w d i key Hm Hk Hv1 Hv2)
    as (w' & Hget & Ht & Hm' & Hc').
  exists w'. split; [| auto].
  rewrite (call_dispatches E job "check_signature" payload cls fields w Hs Hc
             eq_refl Hp).
  change (CryptoWorker.invoke E "check_signature" (CryptoWorker.fields_dict fields))
    with (CryptoWorker.check_signature E (CryptoWorker.fields_dict fields)).
  unfold CryptoWorker.check_signature. rewrite Hargs.
  unfold bind, CryptoWorker.lift. now rewrite Hget, Hver.
Qed.

Lemma call_check_signature_cached_witness :
  (CryptoWorker.split_once "check_signature::issuer.example" =
     Some ("check_signature", "issuer.example") /\
   PROTOBUF_CLASSES Samples.env_verify_sig "check_signature" =
     Some Samples.signature_classes /\
   CryptoWorker.bind_kwargs ["hostname"; "signed_data"; "signature"; "algorithm"]
     Samples.signature_job =
     Ok [PyStr "issuer.example"; PyStr "data"; PyStr "sig"; PyStr "RS256"] /\
   jwt_verify Samples.env_verify_sig (PyStr "RS256") (PyStr "MEMKEY") (PyStr "data")
     (PyStr "sig") = Ok (PyBool true)) /\
  exists w',
    CryptoWorker.call Samples.env_verify_sig "check_signature::issuer.example"
      Examples.world_memory_hit =
      (Ok (CryptoWorker.Bytes
             (SerializeToString Samples.signature_classes
                {| value := Some (PyBool true); error_type := None; error := None |})),
       w') /\
    trace w' = trace Examples.world_memory_hit /\
    memory w' = memory Examples.world_memory_hit /\
    memcache w' = memcache Examples.world_memory_hit.
Proof.
  split; [repeat split |].
  apply (call_check_signature_cached Samples.env_verify_sig
           "check_signature::issuer.example" "issuer.example"
           Samples.signature_classes
           [("hostname", PyStr "issuer.example"); ("signed_data", PyStr "data");
            ("signature", PyStr "sig"); ("algorithm", PyStr "RS256")]
           (PyStr "issuer.example") (PyStr "data") (PyStr "sig") (PyStr "RS256")
           (PyBool true) Examples.world_memory_hit
           (TTLedDict.setitem 1000 "issuer.example" (PyStr "MEMKEY") (TTLedDict.init 600))
           1000 (PyStr "MEMKEY"));
    reflexivity.
Defined.
